(** * The autonomous city simulation: agents, city state and the day cycle

    A shallow embedding of [city_state.py], [agents.py] and [workflow.py].

    - Python [float] is IEEE-754 binary64; it is modelled by Rocq's primitive
      [float], which has the same format, rounding and comparison rules
      (comparisons with NaN are false).
    - Python [int] is [Z]; [str] is [string]; [Optional[str]] is
      [option string]; [Dict[str, float]] is [gmap string float];
      the [plans] dict of the engine is [gmap Z PlannedAction].
    - Methods that mutate their arguments are computations in a small
      state-and-error monad over the objects reachable from the call; a Python
      exception ([KeyError] on a missing counter, [IndexError]) is [None].
    - The random number generator is an injected capability, the class
      [RandomSource]. Console output is not modelled. *)

From Stdlib Require Import ZArith Floats.
From stdpp Require Import base option list gmap strings.

Set Warnings "-inexact-float".

Local Open Scope string_scope.

(** ** Python's float built-ins *)

(** [min(a, b)] keeps [a] unless [b < a]; [max(a, b)] keeps [a] unless
    [b > a] (CPython's [min_max] walks the arguments in order). *)
Definition py_min (a b : float) : float := if (b <? a)%float then b else a.
Definition py_max (a b : float) : float := if (a <? b)%float then b else a.

(** [max(0.0, min(1.0, x))], the clamp used by [Agent.act] and
    [CityState.clamp_metrics]. *)
Definition clamp01 (x : float) : float := py_max 0 (py_min 1 x).

(** [x] lies in the closed interval [0.0, 1.0] (so [x] is not NaN). *)
Definition in_unit (x : float) : Prop :=
  (0 <=? x)%float = true /\ (x <=? 1)%float = true.

(** ** city_state.py *)

Record DayContext := {
  ctx_day : Z;
  weather : string;
  events : list string
}.

Record ActionLogEntry := {
  entry_day : Z;
  agent_id : Z;
  agent_name : string;
  entry_role : string;
  description : string
}.

Record CityState := {
  day : Z;
  economy : float;
  safety : float;
  happiness : float;
  daily_stats : gmap string float;
  logs : list ActionLogEntry
}.

(** [CityState()] with the dataclass defaults. *)
Definition CityState_default : CityState :=
  {| day := 1; economy := 100; safety := 0.8; happiness := 0.8;
     daily_stats := ∅; logs := [] |}.

Definition set_day (v : Z) (c : CityState) : CityState :=
  {| day := v; economy := economy c; safety := safety c;
     happiness := happiness c; daily_stats := daily_stats c; logs := logs c |}.
Definition set_economy (v : float) (c : CityState) : CityState :=
  {| day := day c; economy := v; safety := safety c;
     happiness := happiness c; daily_stats := daily_stats c; logs := logs c |}.
Definition set_safety (v : float) (c : CityState) : CityState :=
  {| day := day c; economy := economy c; safety := v;
     happiness := happiness c; daily_stats := daily_stats c; logs := logs c |}.
Definition set_happiness (v : float) (c : CityState) : CityState :=
  {| day := day c; economy := economy c; safety := safety c;
     happiness := v; daily_stats := daily_stats c; logs := logs c |}.
Definition set_daily_stats (v : gmap string float) (c : CityState) : CityState :=
  {| day := day c; economy := economy c; safety := safety c;
     happiness := happiness c; daily_stats := v; logs := logs c |}.
Definition set_logs (v : list ActionLogEntry) (c : CityState) : CityState :=
  {| day := day c; economy := economy c; safety := safety c;
     happiness := happiness c; daily_stats := daily_stats c; logs := v |}.

(** The seven counters, in the order [reset_daily_stats] writes them. *)
Definition stat_keys : list string :=
  ["work_count"; "shop_count"; "patrol_count"; "crime_attempts";
   "crime_prevented"; "social_interactions"; "rest_count"].

Definition zero_stats : gmap string float :=
  <["rest_count" := 0%float]>
  (<["social_interactions" := 0%float]>
  (<["crime_prevented" := 0%float]>
  (<["crime_attempts" := 0%float]>
  (<["patrol_count" := 0%float]>
  (<["shop_count" := 0%float]>
  (<["work_count" := 0%float]> ∅)))))).

Definition reset_daily_stats (c : CityState) : CityState :=
  set_daily_stats zero_stats c.

Definition log_action (entry : ActionLogEntry) (c : CityState) : CityState :=
  set_logs (logs c ++ [entry]) c.

Definition clamp_metrics (c : CityState) : CityState :=
  let c := set_safety (py_max 0 (py_min 1 (safety c))) c in
  set_happiness (py_max 0 (py_min 1 (happiness c))) c.

(** Every counter of [stat_keys] is present in the dict. *)
Definition has_counters (m : gmap string float) : Prop :=
  forall k, k ∈ stat_keys -> is_Some (m !! k).

(** ** agents.py: data *)

Record PlannedAction := {
  action_type : string;
  target : option string;
  note : string
}.

(** [PlannedAction(action_type=..., target=..., note=...)] with the
    dataclass defaults [target=None], [note=""]. *)
Definition mk_plan (ty : string) (tg : option string) (nt : string) : PlannedAction :=
  {| action_type := ty; target := tg; note := nt |}.

Record Agent := {
  id : Z;
  name : string;
  role : string;
  money : float;
  energy : float;
  mood : float
}.

(** [Agent(id=..., name=..., role=...)] with the dataclass defaults. *)
Definition mk_agent (i : Z) (n r : string) : Agent :=
  {| id := i; name := n; role := r; money := 50; energy := 1; mood := 0.5 |}.

Definition set_money (v : float) (a : Agent) : Agent :=
  {| id := id a; name := name a; role := role a;
     money := v; energy := energy a; mood := mood a |}.
Definition set_energy (v : float) (a : Agent) : Agent :=
  {| id := id a; name := name a; role := role a;
     money := money a; energy := v; mood := mood a |}.
Definition set_mood (v : float) (a : Agent) : Agent :=
  {| id := id a; name := name a; role := role a;
     money := money a; energy := energy a; mood := v |}.

(** [x or d] for an optional string: [None] and the empty string are falsy. *)
Definition or_else (x : option string) (d : string) : string :=
  match x with
  | Some s => if String.eqb s "" then d else s
  | None => d
  end.

(** ** The state-and-error monad *)

Definition M (St A : Type) : Type := St -> option (A * St).

Definition ret {St A} (a : A) : M St A := fun s => Some (a, s).
Definition bind {St A B} (m : M St A) (k : A -> M St B) : M St B :=
  fun s => match m s with
           | Some (a, s') => k a s'
           | None => None
           end.
Definition raise {St A} : M St A := fun _ => None.
Definition gets {St A} (f : St -> A) : M St A := fun s => Some (f s, s).
Definition modify {St} (f : St -> St) : M St unit := fun s => Some (tt, f s).

Notation "'let*' x ':=' m 'in' k" := (bind m (fun x => k))
  (at level 10, x name, m at level 100, k at level 200).
Notation "m ';;' k" := (bind m (fun _ => k))
  (at level 100, k at level 200, right associativity).

(** ** The random source *)

(** [random.Random]: [seed_rng] is the constructor from an explicit integer
    seed, [random] is [rng.random()], [randbelow n] is the index draw behind
    [rng.choice] on a sequence of length [n]. *)
Class RandomSource (G : Type) := {
  seed_rng : Z -> G;
  random : G -> float * G;
  randbelow : nat -> G -> nat * G;
  randbelow_lt : forall n g, (0 < n)%nat -> (fst (randbelow n g) < n)%nat
}.

Section Simulation.

Context {G : Type} `{RandomSource G}.

(** *** Agent.plan *)

(** The objects a call [self.plan(city, ctx, rng)] can reach. *)
Record PlanFrame := {
  p_self : Agent;
  p_city : CityState;
  p_ctx : DayContext;
  p_rng : G
}.

(** [rng.random()] inside [plan]. *)
Definition plan_random : M PlanFrame float :=
  fun fr =>
    let r := random (p_rng fr) in
    Some (fst r, {| p_self := p_self fr; p_city := p_city fr;
                    p_ctx := p_ctx fr; p_rng := snd r |}).

Definition plan : M PlanFrame PlannedAction :=
  let* self := gets p_self in
  let* city := gets p_city in
  if (energy self <? 0.3)%float then
    ret (mk_plan "rest" None "Too tired, staying home.")
  else if String.eqb (role self) "worker" then
    let* p := plan_random in
    if (p <? 0.7)%float then ret (mk_plan "work" (Some "office") "")
    else if (p <? 0.85)%float then ret (mk_plan "socialize" (Some "cafe") "")
    else ret (mk_plan "rest" None "")
  else if String.eqb (role self) "shop_owner" then
    let* p := plan_random in
    if (economy city <? 80)%float && (p <? 0.3)%float then
      ret (mk_plan "rest" None "Economy looks bad.")
    else if (p <? 0.75)%float then ret (mk_plan "shop" (Some "store") "")
    else ret (mk_plan "socialize" (Some "market") "")
  else if String.eqb (role self) "student" then
    let* p := plan_random in
    if (p <? 0.5)%float then ret (mk_plan "work" (Some "school") "Studying.")
    else if (p <? 0.8)%float then ret (mk_plan "socialize" (Some "park") "")
    else ret (mk_plan "rest" None "")
  else if String.eqb (role self) "police" then
    let* p := plan_random in
    let base_patrol := (0.6 + (0.5 - safety city))%float in
    if (p <? base_patrol)%float then ret (mk_plan "patrol" (Some "streets") "")
    else if (p <? 0.9)%float then ret (mk_plan "socialize" (Some "station") "")
    else ret (mk_plan "rest" None "")
  else
    let* p := plan_random in
    if (p <? 0.4)%float then ret (mk_plan "work" (Some "generic_job") "")
    else if (p <? 0.7)%float then ret (mk_plan "socialize" (Some "square") "")
    else ret (mk_plan "rest" None "").

(** *** Agent.act *)

(** The objects a call [self.act(plan, city, rng)] can reach. *)
Record ActFrame := {
  a_self : Agent;
  a_city : CityState;
  a_rng : G
}.

Definition upd_self (f : Agent -> Agent) : M ActFrame unit :=
  modify (fun fr => {| a_self := f (a_self fr); a_city := a_city fr; a_rng := a_rng fr |}).
Definition upd_city (f : CityState -> CityState) : M ActFrame unit :=
  modify (fun fr => {| a_self := a_self fr; a_city := f (a_city fr); a_rng := a_rng fr |}).

(** [rng.random()] inside [act]. *)
Definition act_random : M ActFrame float :=
  fun fr =>
    let r := random (a_rng fr) in
    Some (fst r, {| a_self := a_self fr; a_city := a_city fr; a_rng := snd r |}).

(** [city.daily_stats[key] += 1]: a [KeyError] when the counter is absent. *)
Definition stat_incr (key : string) : M ActFrame unit :=
  let* city := gets a_city in
  match daily_stats city !! key with
  | Some v => upd_city (set_daily_stats (<[key := (v + 1)%float]> (daily_stats city)))
  | None => raise
  end.

(** The [if]/[elif] chain of [act]; its value is [desc]. *)
Definition act_branch (plan : PlannedAction) : M ActFrame string :=
  if String.eqb (action_type plan) "work" then
    upd_self (fun a => set_money (money a + 10)%float a);;
    upd_self (fun a => set_energy (energy a - 0.2)%float a);;
    upd_self (fun a => set_mood (mood a + 0.05)%float a);;
    stat_incr "work_count";;
    upd_city (fun c => set_economy (economy c + 1.5)%float c);;
    ret ("worked at " +:+ or_else (target plan) "workplace" +:+ " and earned 10.0.")
  else if String.eqb (action_type plan) "shop" then
    let* self := gets a_self in
    if (5 <=? money self)%float then
      upd_self (fun a => set_money (money a - 5)%float a);;
      upd_self (fun a => set_energy (energy a - 0.1)%float a);;
      upd_self (fun a => set_mood (mood a + 0.1)%float a);;
      stat_incr "shop_count";;
      upd_city (fun c => set_economy (economy c + 1)%float c);;
      ret ("ran the shop at " +:+ or_else (target plan) "store" +:+ ", trading with customers.")
    else
      ret "wanted to run the shop but lacked resources."
  else if String.eqb (action_type plan) "rest" then
    upd_self (fun a => set_energy (py_min 1 (energy a + 0.4)%float) a);;
    upd_self (fun a => set_mood (mood a + 0.05)%float a);;
    stat_incr "rest_count";;
    ret "stayed home to rest."
  else if String.eqb (action_type plan) "patrol" then
    stat_incr "patrol_count";;
    upd_self (fun a => set_energy (energy a - 0.2)%float a);;
    ret "patrolled the city streets."
  else if String.eqb (action_type plan) "crime" then
    stat_incr "crime_attempts";;
    upd_self (fun a => set_energy (energy a - 0.2)%float a);;
    let* city := gets a_city in
    let success_prob := (0.3 + (0.5 - safety city))%float in
    let* p := act_random in
    if (p <? success_prob)%float then
      upd_self (fun a => set_money (money a + 15)%float a);;
      upd_self (fun a => set_mood (mood a + 0.1)%float a);;
      upd_city (fun c => set_safety (safety c - 0.05)%float c);;
      ret "successfully committed a crime and gained 15.0."
    else
      upd_self (fun a => set_mood (mood a - 0.2)%float a);;
      stat_incr "crime_prevented";;
      ret "attempted a crime but was caught or scared away."
  else if String.eqb (action_type plan) "socialize" then
    stat_incr "social_interactions";;
    upd_self (fun a => set_energy (energy a - 0.1)%float a);;
    upd_self (fun a => set_mood (mood a + 0.1)%float a);;
    ret ("socialized at " +:+ or_else (target plan) "a public place" +:+ ".")
  else
    ret "".

Definition act (plan : PlannedAction) : M ActFrame unit :=
  let* desc := act_branch plan in
  upd_self (fun a => set_energy (py_max 0 (py_min 1 (energy a))) a);;
  upd_self (fun a => set_mood (py_max 0 (py_min 1 (mood a))) a);;
  let* self := gets a_self in
  let* city := gets a_city in
  upd_city (log_action
    {| entry_day := day city;
       agent_id := id self;
       agent_name := name self;
       entry_role := role self;
       description := if String.eqb desc "" then "did nothing in particular." else desc |}).

(** ** workflow.py: CitySimulationEngine *)

Record Engine := {
  rng : G;
  city : CityState;
  agents : list Agent
}.

Definition _create_default_agents : list Agent :=
  [ mk_agent 1 "Alice" "worker";
    mk_agent 2 "Bob" "worker";
    mk_agent 3 "Carla" "shop_owner";
    mk_agent 4 "Daniel" "student";
    mk_agent 5 "Eva" "police";
    mk_agent 6 "Frank" "citizen" ].

(** The engine of [__init__]'s shape over any roster; the source always
    installs [_create_default_agents ()]. *)
Definition engine_with (roster : list Agent) (seed : Z) : Engine :=
  {| rng := seed_rng seed; city := CityState_default; agents := roster |}.

(** [CitySimulationEngine(seed)] for an explicit integer seed. *)
Definition __init__ (seed : Z) : Engine :=
  engine_with _create_default_agents seed.

Definition upd_engine_city (f : CityState -> CityState) : M Engine unit :=
  modify (fun e => {| rng := rng e; city := f (city e); agents := agents e |}).

(** [self.rng.random()] inside the engine. *)
Definition engine_random : M Engine float :=
  fun e =>
    let r := random (rng e) in
    Some (fst r, {| rng := snd r; city := city e; agents := agents e |}).

(** [self.rng.choice(seq)], that is [seq[self._randbelow(len(seq))]]. *)
Definition engine_choice (seq : list string) : M Engine string :=
  fun e =>
    let r := randbelow (length seq) (rng e) in
    match seq !! fst r with
    | Some x => Some (x, {| rng := snd r; city := city e; agents := agents e |})
    | None => None
    end.

Definition _random_weather : M Engine string :=
  engine_choice ["sunny"; "cloudy"; "rainy"; "windy"].

Definition _day_context : M Engine DayContext :=
  let* weather := _random_weather in
  let* p := engine_random in
  let events :=
    if (p <? 0.1)%float then ["city_festival"]
    else if (p <? 0.18)%float then ["minor_economic_downturn"]
    else if (p <? 0.25)%float then ["crime_wave"]
    else [] in
  let* c := gets city in
  ret {| ctx_day := day c; weather := weather; events := events |}.

Definition _day_start : M Engine unit :=
  upd_engine_city reset_daily_stats.

(** [self.agents[i]], the agent a [for agent in self.agents] loop visits at
    step [i]. *)
Definition agent_at (i : nat) : M Engine Agent :=
  fun e => match agents e !! i with
           | Some a => Some (a, e)
           | None => None
           end.

(** [agent.plan(self.city, ctx, self.rng)] for the agent at position [i]:
    the four objects are handed to [plan] and what it leaves of them is
    written back; the context object comes back with the plan. *)
Definition call_plan (i : nat) (ctx : DayContext)
  : M Engine (PlannedAction * DayContext) :=
  let* a := agent_at i in
  fun e =>
    match plan {| p_self := a; p_city := city e; p_ctx := ctx; p_rng := rng e |} with
    | Some (pl, fr) =>
        Some ((pl, p_ctx fr),
              {| rng := p_rng fr; city := p_city fr;
                 agents := <[i := p_self fr]> (agents e) |})
    | None => None
    end.

Fixpoint planning_loop (idxs : list nat) (ctx : DayContext)
    (plans : gmap Z PlannedAction) : M Engine (gmap Z PlannedAction * DayContext) :=
  match idxs with
  | [] => ret (plans, ctx)
  | i :: rest =>
      let* r := call_plan i ctx in
      let* agent := agent_at i in
      planning_loop rest (snd r) (<[id agent := fst r]> plans)
  end.

Definition _citizen_planning (ctx : DayContext)
  : M Engine (gmap Z PlannedAction * DayContext) :=
  let* e := gets (fun e => e) in
  planning_loop (seq 0 (length (agents e))) ctx ∅.

(** [agent.act(plan, self.city, self.rng)] for the agent at position [i]. *)
Definition call_act (i : nat) (pl : PlannedAction) : M Engine unit :=
  let* a := agent_at i in
  fun e =>
    match act pl {| a_self := a; a_city := city e; a_rng := rng e |} with
    | Some (_, fr) =>
        Some (tt, {| rng := a_rng fr; city := a_city fr;
                     agents := <[i := a_self fr]> (agents e) |})
    | None => None
    end.

(** [self.city.logs[-1]]: an [IndexError] on an empty log. *)
Definition last_entry : M Engine ActionLogEntry :=
  fun e => match last (logs (city e)) with
           | Some x => Some (x, e)
           | None => None
           end.

Fixpoint actions_loop (idxs : list nat) (plans : gmap Z PlannedAction)
  : M Engine unit :=
  match idxs with
  | [] => ret tt
  | i :: rest =>
      let* agent := agent_at i in
      match plans !! id agent with
      | None => actions_loop rest plans
      | Some pl =>
          call_act i pl;;
          last_entry;;
          actions_loop rest plans
      end
  end.

Definition _citizen_actions (plans : gmap Z PlannedAction) (ctx : DayContext)
  : M Engine unit :=
  let* e := gets (fun e => e) in
  actions_loop (seq 0 (length (agents e))) plans.

(** [stats[key]] on the day's counters: a [KeyError] when absent. *)
Definition stat (key : string) : M Engine float :=
  fun e => match daily_stats (city e) !! key with
           | Some v => Some (v, e)
           | None => None
           end.

Definition _city_update : M Engine unit :=
  let* work_count := stat "work_count" in
  let* shop_count := stat "shop_count" in
  upd_engine_city (fun c =>
    set_economy (economy c + (0.5 * work_count + 0.3 * shop_count))%float c);;
  upd_engine_city (fun c => set_economy (economy c * 0.995)%float c);;
  let* patrol_count := stat "patrol_count" in
  upd_engine_city (fun c => set_safety (safety c + 0.01 * patrol_count)%float c);;
  let* crime_attempts := stat "crime_attempts" in
  upd_engine_city (fun c => set_safety (safety c - 0.03 * crime_attempts)%float c);;
  let* crime_prevented := stat "crime_prevented" in
  upd_engine_city (fun c => set_safety (safety c + 0.02 * crime_prevented)%float c);;
  let* social_interactions := stat "social_interactions" in
  upd_engine_city (fun c =>
    set_happiness (happiness c + 0.01 * social_interactions)%float c);;
  let* rest_count := stat "rest_count" in
  upd_engine_city (fun c => set_happiness (happiness c + 0.005 * rest_count)%float c);;
  let* crime_attempts' := stat "crime_attempts" in
  upd_engine_city (fun c =>
    set_happiness (happiness c - 0.015 * crime_attempts')%float c);;
  upd_engine_city clamp_metrics.

(** The log entries of the current day, as [_reporting] selects them. *)
Definition todays_logs (c : CityState) : list ActionLogEntry :=
  filter (fun l => entry_day l = day c) (logs c).

(** [_reporting] only prints; its value here is the sample of at most five
    entries it shows. *)
Definition _reporting : M Engine (list ActionLogEntry) :=
  let* c := gets city in
  ret (take 5 (todays_logs c)).

Definition _next_day : M Engine unit :=
  upd_engine_city (fun c => set_day (day c + 1)%Z c).

(** One iteration of the loop of [run]; its value is the day's [plans]. *)
Definition day_cycle : M Engine (gmap Z PlannedAction) :=
  _day_start;;
  let* ctx := _day_context in
  let* r := _citizen_planning ctx in
  _citizen_actions (fst r) (snd r);;
  _city_update;;
  _reporting;;
  _next_day;;
  ret (fst r).

Fixpoint run_loop (n : nat) : M Engine (list (gmap Z PlannedAction)) :=
  match n with
  | O => ret []
  | S n' =>
      let* plans := day_cycle in
      let* later := run_loop n' in
      ret (plans :: later)
  end.

(** [run(days)]: [range(days)] is empty for [days <= 0]. The value collects
    the [plans] of every day. *)
Definition run (days : Z) : M Engine (list (gmap Z PlannedAction)) :=
  run_loop (Z.to_nat days).

(** The random source after [n] more calls of [rng.random()]. *)
Definition advance (n : nat) (g : G) : G :=
  Nat.iter n (fun g => snd (random g)) g.

(** The agents of a roster that are not tired: [plan] draws for them. *)
Definition fit_agents (roster : list Agent) : list Agent :=
  filter (fun a => (energy a <? 0.3)%float = false) roster.

(** [main()] of [main.py]: [engine = CitySimulationEngine(seed=42)] then
    [engine.run(days=5)]; its value is the outcome of that run. *)
Definition main : option (list (gmap Z PlannedAction) * Engine) :=
  run 5 (__init__ 42).

End Simulation.

Arguments PlanFrame : clear implicits.
Arguments ActFrame : clear implicits.
Arguments Engine : clear implicits.

(** ** A scripted random source

    The draws are read off two tapes, one for [random] and one for the index
    draws of [choice]; an exhausted tape yields 0. *)

Record Tape := {
  uniforms : list float;
  indices : list nat
}.

Definition tape_random (t : Tape) : float * Tape :=
  match uniforms t with
  | [] => (0%float, t)
  | x :: xs => (x, {| uniforms := xs; indices := indices t |})
  end.

Definition tape_randbelow (n : nat) (t : Tape) : nat * Tape :=
  match indices t with
  | [] => (0%nat, t)
  | i :: rest => ((i mod n)%nat, {| uniforms := uniforms t; indices := rest |})
  end.

#[export] Instance tape_source : RandomSource Tape := {|
  seed_rng := fun _ => {| uniforms := []; indices := [] |};
  random := tape_random;
  randbelow := tape_randbelow;
  randbelow_lt := fun n t Hn =>
    match indices t as l
      return (fst match l with
                  | [] => (0%nat, t)
                  | i :: rest =>
                      ((i mod n)%nat, {| uniforms := uniforms t; indices := rest |})
                  end < n)%nat
    with
    | [] => Hn
    | i :: _ => Nat.mod_upper_bound i n (Nat.neq_sym _ _ (Nat.lt_neq _ _ Hn))
    end
|}.
(** ** Concrete inputs

    States on the scripted source, on which the properties below are run. *)

Definition no_draws : Tape := {| uniforms := []; indices := [] |}.

(** A day-one city whose counters have been reset. *)
Definition fresh_city : CityState := reset_daily_stats CityState_default.

Definition shop_plan : PlannedAction := mk_plan "shop" (Some "store") "".
Definition crime_plan : PlannedAction := mk_plan "crime" None "".

(** Carla without money, about to run the shop. *)
Definition poor_carla : Agent := set_money 0 (mk_agent 3 "Carla" "shop_owner").
Definition shop_frame : ActFrame Tape :=
  {| a_self := poor_carla; a_city := fresh_city; a_rng := no_draws |}.

(** Frank attempting a crime with the draw 0.9 ahead: with safety 0.8 the
    success probability is about 0, so the attempt fails. *)
Definition crime_frame : ActFrame Tape :=
  {| a_self := mk_agent 6 "Frank" "citizen"; a_city := fresh_city;
     a_rng := {| uniforms := [0.9%float]; indices := [] |} |}.

(** A tired worker. *)
Definition tired_frame : PlanFrame Tape :=
  {| p_self := set_energy 0.1 (mk_agent 1 "Alice" "worker");
     p_city := fresh_city;
     p_ctx := {| ctx_day := 1; weather := "sunny"; events := [] |};
     p_rng := no_draws |}.

(** Carla planning in a weak economy with the draw 0.5 ahead. *)
Definition owner_frame : PlanFrame Tape :=
  {| p_self := mk_agent 3 "Carla" "shop_owner";
     p_city := set_economy 70 fresh_city;
     p_ctx := {| ctx_day := 1; weather := "sunny"; events := [] |};
     p_rng := {| uniforms := [0.5%float]; indices := [] |} |}.

(** The engine at the CITY_UPDATE phase of a day with four work actions, one
    shop action and one patrol. *)
Definition busy_engine : Engine Tape :=
  {| rng := no_draws;
     city := set_daily_stats
               (<["patrol_count" := 1%float]>
                (<["shop_count" := 1%float]>
                 (<["work_count" := 4%float]> zero_stats)))
               CityState_default;
     agents := _create_default_agents |}.

Definition work_plan : PlannedAction := mk_plan "work" (Some "office") "".
Definition rest_plan : PlannedAction := mk_plan "rest" None "".
(** A plan of a type [act] does not know. *)
Definition dance_plan : PlannedAction := mk_plan "dance" None "".

(** Alice in a day-one city with its counters reset, and in a city fresh
    from [CityState()], whose dict is still empty. *)
Definition alice_frame : ActFrame Tape :=
  {| a_self := mk_agent 1 "Alice" "worker"; a_city := fresh_city;
     a_rng := no_draws |}.
Definition unreset_frame : ActFrame Tape :=
  {| a_self := mk_agent 1 "Alice" "worker"; a_city := CityState_default;
     a_rng := no_draws |}.

(** An agent of a role the dispatch does not know, with the draw 0.5 ahead. *)
Definition mayor_frame : PlanFrame Tape :=
  {| p_self := mk_agent 7 "Gina" "mayor";
     p_city := fresh_city;
     p_ctx := {| ctx_day := 1; weather := "rainy"; events := ["crime_wave"] |};
     p_rng := {| uniforms := [0.5%float]; indices := [] |} |}.

(** The engine as [main] builds it, on the scripted source. *)
Definition start_engine : Engine Tape := __init__ 42.

(** ** Two runs side by side

    Two independent runs have a random source each, possibly of different
    implementations. [R] relates the states of the two sources. *)

Section TwoSources.

Context {G1 G2 : Type} `{RandomSource G1} `{RandomSource G2}.

Variable R : G1 -> G2 -> Prop.

(** Related sources deliver the same draws and stay related: this is what
    two generators seeded alike owe each other. *)
Definition same_draws : Prop :=
  (forall g1 g2, R g1 g2 ->
     fst (random g1) = fst (random g2) /\
     R (snd (random g1)) (snd (random g2))) /\
  (forall n g1 g2, R g1 g2 ->
     fst (randbelow n g1) = fst (randbelow n g2) /\
     R (snd (randbelow n g1)) (snd (randbelow n g2))).

(** Two engines with the same city and the same agents, whose random
    sources are related. *)
Definition same_world (e1 : Engine G1) (e2 : Engine G2) : Prop :=
  R (rng e1) (rng e2) /\ city e1 = city e2 /\ agents e1 = agents e2.

(** Two outcomes agree: both raise, or both return the same value and leave
    the same world. *)
Definition agree {A : Type} (r1 : option (A * Engine G1))
    (r2 : option (A * Engine G2)) : Prop :=
  match r1, r2 with
  | Some (a1, e1), Some (a2, e2) => a1 = a2 /\ same_world e1 e2
  | None, None => True
  | _, _ => False
  end.

End TwoSources.

(** ** Two seeded random sources

    A linear congruential generator, and the same generator in an object
    that also counts its calls. *)

Definition lcg_next (s : Z) : Z := (s * 1103515245 + 12345) mod 2147483648.

Definition lcg_uniform (s : Z) : float :=
  (PrimFloat.of_uint63 (Uint63.of_Z s) / 2147483648)%float.

Definition lcg_index (n : nat) (s : Z) : nat := Z.to_nat (s mod Z.of_nat n).

Record Lcg := { lcg_state : Z }.

Record CountedLcg := { inner_state : Z; calls : nat }.

#[export] Instance lcg_source : RandomSource Lcg := {|
  seed_rng := fun seed => {| lcg_state := seed mod 2147483648 |};
  random := fun g =>
    (lcg_uniform (lcg_next (lcg_state g)),
     {| lcg_state := lcg_next (lcg_state g) |});
  randbelow := fun n g =>
    (lcg_index n (lcg_next (lcg_state g)),
     {| lcg_state := lcg_next (lcg_state g) |});
  randbelow_lt := fun n g Hn =>
    ltac:(simpl; unfold lcg_index;
          pose proof (Z.mod_pos_bound (lcg_next (lcg_state g)) (Z.of_nat n)
                        ltac:(lia));
          lia)
|}.

#[export] Instance counted_lcg_source : RandomSource CountedLcg := {|
  seed_rng := fun seed => {| inner_state := seed mod 2147483648; calls := 0 |};
  random := fun g =>
    (lcg_uniform (lcg_next (inner_state g)),
     {| inner_state := lcg_next (inner_state g); calls := S (calls g) |});
  randbelow := fun n g =>
    (lcg_index n (lcg_next (inner_state g)),
     {| inner_state := lcg_next (inner_state g); calls := S (calls g) |});
  randbelow_lt := fun n g Hn =>
    ltac:(simpl; unfold lcg_index;
          pose proof (Z.mod_pos_bound (lcg_next (inner_state g)) (Z.of_nat n)
                        ltac:(lia));
          lia)
|}.

(** An engine on the evening of day 1: the log holds one entry of the day
    before and two of the day. *)
Definition old_entry : ActionLogEntry :=
  {| entry_day := 0; agent_id := 1; agent_name := "Alice"; entry_role := "worker";
     description := "stayed home to rest." |}.
Definition alice_entry : ActionLogEntry :=
  {| entry_day := 1; agent_id := 1; agent_name := "Alice"; entry_role := "worker";
     description := "worked at office and earned 10.0." |}.
Definition bob_entry : ActionLogEntry :=
  {| entry_day := 1; agent_id := 2; agent_name := "Bob"; entry_role := "worker";
     description := "stayed home to rest." |}.
Definition evening_engine : Engine Tape :=
  {| rng := no_draws;
     city := set_logs [old_entry; alice_entry; bob_entry] fresh_city;
     agents := _create_default_agents |}.

(** * Properties *)

(** ** Order facts on binary64 *)

Section FloatOrder.

Lemma SFcompare_antisym x y :
  SFcompare y x = option_map CompOpp (SFcompare x y).
Proof.
  destruct x as [[]|[]| |[] mx ex], y as [[]|[]| |[] my ey]; simpl; try reflexivity.
  - rewrite (Z.compare_antisym ex ey).
    destruct (ex ?= ey)%Z; simpl; try reflexivity.
    pose proof (Pos.compare_cont_antisym mx my Eq) as E. simpl in E.
    rewrite <- E. reflexivity.
  - rewrite (Z.compare_antisym ex ey).
    destruct (ex ?= ey)%Z; simpl; try reflexivity.
    pose proof (Pos.compare_cont_antisym mx my Eq) as E. simpl in E.
    rewrite <- E. destruct (Pos.compare_cont Eq mx my); reflexivity.
Qed.

Lemma flt_le x y : (x <? y)%float = true -> (x <=? y)%float = true.
Proof.
  rewrite ltb_spec, leb_spec. unfold SFltb, SFleb.
  destruct (SFcompare _ _) as [[]|]; congruence.
Qed.

Lemma fle_not_lt x y : (y <=? x)%float = true -> (x <? y)%float = false.
Proof.
  rewrite ltb_spec, leb_spec. unfold SFltb, SFleb.
  rewrite (SFcompare_antisym (Prim2SF x) (Prim2SF y)).
  destruct (SFcompare _ _) as [[]|]; simpl; congruence.
Qed.

Lemma flt_not_le x y : (x <? y)%float = true -> (y <=? x)%float = false.
Proof.
  intros Hlt. destruct (y <=? x)%float eqn:Hle; [|reflexivity].
  apply fle_not_lt in Hle. congruence.
Qed.

Lemma clamp01_in_unit x : in_unit (clamp01 x).
Proof.
  unfold in_unit, clamp01, py_max, py_min.
  destruct (x <? 1)%float eqn:Hx1.
  - destruct (0 <? x)%float eqn:H0x.
    + split; apply flt_le; assumption.
    + split; reflexivity.
  - split; reflexivity.
Qed.

End FloatOrder.
(** ** Proof steps for monadic code *)

(** Unfold the monad and the primitive operations of the three frames. *)
Ltac run_monad :=
  cbv beta iota zeta delta
    [bind ret gets modify raise upd_self upd_city stat_incr act_random
     plan_random upd_engine_city engine_random agent_at stat last_entry] in *;
  simpl in *.

(** Case analysis on every string test of the goal. *)
Ltac split_branches :=
  repeat match goal with
  | |- context [String.eqb ?a ?b] => destruct (String.eqb a b) eqn:?
  end.

(** Case analysis on the dict lookups and conditions of a hypothesis. *)
Ltac split_lookups :=
  repeat match goal with
  | H : context [match ?m !! ?k with _ => _ end] |- _ =>
      destruct (m !! k) eqn:?; simpl in H; try discriminate H
  | H : context [if ?b then _ else _] |- _ =>
      destruct b eqn:?; simpl in H; try discriminate H
  end.

(** ** Agent.act *)

Section ActFacts.

Context {G : Type} `{RandomSource G}.

(** [act] is its branch followed by the clamp and the log entry. *)
Lemma act_unfold (pl : PlannedAction) (fr : ActFrame G) :
  act pl fr =
  match act_branch pl fr with
  | Some (desc, fr1) =>
      let self := set_mood (clamp01 (mood (a_self fr1)))
                    (set_energy (clamp01 (energy (a_self fr1))) (a_self fr1)) in
      Some (tt,
        {| a_self := self;
           a_city := log_action
             {| entry_day := day (a_city fr1);
                agent_id := id self;
                agent_name := name self;
                entry_role := role self;
                description :=
                  if String.eqb desc "" then "did nothing in particular." else desc |}
             (a_city fr1);
           a_rng := a_rng fr1 |})
  | None => None
  end.
Proof.
  unfold act. unfold bind at 1.
  destruct (act_branch pl fr) as [[desc fr1]|]; reflexivity.
Qed.

(** What no branch of [act] touches: the agent's identity, the day, the log,
    happiness, and the set of counters. *)
Lemma act_branch_frame (pl : PlannedAction) (fr fr1 : ActFrame G) desc :
  act_branch pl fr = Some (desc, fr1) ->
  id (a_self fr1) = id (a_self fr) /\
  name (a_self fr1) = name (a_self fr) /\
  role (a_self fr1) = role (a_self fr) /\
  day (a_city fr1) = day (a_city fr) /\
  logs (a_city fr1) = logs (a_city fr) /\
  happiness (a_city fr1) = happiness (a_city fr) /\
  dom (daily_stats (a_city fr1)) = dom (daily_stats (a_city fr)).
Proof.
  unfold act_branch; split_branches; intros Hb; run_monad; split_lookups;
    inversion Hb; subst; clear Hb; simpl;
    repeat split; try reflexivity;
    repeat (rewrite dom_insert_lookup_L; [|eauto]); try reflexivity.
Qed.

(** Outside the crime branch [act] leaves safety, both crime counters and
    the random source alone. *)
Lemma act_branch_no_crime (pl : PlannedAction) (fr fr1 : ActFrame G) desc :
  action_type pl <> "crime" ->
  act_branch pl fr = Some (desc, fr1) ->
  safety (a_city fr1) = safety (a_city fr) /\
  daily_stats (a_city fr1) !! "crime_attempts"
    = daily_stats (a_city fr) !! "crime_attempts" /\
  daily_stats (a_city fr1) !! "crime_prevented"
    = daily_stats (a_city fr) !! "crime_prevented" /\
  a_rng fr1 = a_rng fr.
Proof.
  intros Hty. unfold act_branch; split_branches; intros Hb;
    try match goal with
        | E : String.eqb _ "crime" = true |- _ =>
            apply String.eqb_eq in E; contradiction
        end;
    run_monad; split_lookups;
    inversion Hb; subst; clear Hb; simpl;
    repeat split; try reflexivity;
    rewrite lookup_insert_ne; (reflexivity || discriminate).
Qed.

(** With the seven counters present no branch raises. *)
Lemma act_branch_total (pl : PlannedAction) (fr : ActFrame G) :
  has_counters (daily_stats (a_city fr)) ->
  is_Some (act_branch pl fr).
Proof.
  intros Hk.
  assert (Hin : forall k, k ∈ stat_keys ->
                 exists v, daily_stats (a_city fr) !! k = Some v).
  { intros k Hk'. destruct (Hk k Hk') as [v Hv]. eauto. }
  destruct (Hin "work_count") as [v1 E1]; [repeat constructor|].
  destruct (Hin "shop_count") as [v2 E2]; [repeat constructor|].
  destruct (Hin "patrol_count") as [v3 E3]; [repeat constructor|].
  destruct (Hin "crime_attempts") as [v4 E4]; [repeat constructor|].
  destruct (Hin "crime_prevented") as [v5 E5]; [repeat constructor|].
  destruct (Hin "social_interactions") as [v6 E6]; [repeat constructor|].
  destruct (Hin "rest_count") as [v7 E7]; [repeat constructor|].
  unfold act_branch; split_branches; run_monad;
    rewrite ?E1, ?E2, ?E3, ?E4, ?E6, ?E7; simpl;
    repeat match goal with
    | |- context [if ?b then _ else _] => destruct b; simpl
    end;
    rewrite ?E2, ?lookup_insert_ne, ?E5 by discriminate; simpl; eauto.
Qed.

Lemma act_total (pl : PlannedAction) (fr : ActFrame G) :
  has_counters (daily_stats (a_city fr)) ->
  is_Some (act pl fr).
Proof.
  intros Hk. rewrite act_unfold.
  destruct (act_branch_total pl fr Hk) as [[desc fr1] ->]. simpl. eauto.
Qed.

End ActFacts.

Section ActClaims.

Context {G : Type} `{RandomSource G}.

(** C1 (as amended): an agent whose money is below 5 and who executes a
    [shop] action keeps its money, the city's economy gets no shop term,
    and the counters are left as they were: [shop_count] is incremented only
    when the shop is actually run. The call never raises. *)
Theorem shop_without_funds (pl : PlannedAction) (fr : ActFrame G) :
  action_type pl = "shop" ->
  (money (a_self fr) <? 5)%float = true ->
  exists fr',
    act pl fr = Some (tt, fr') /\
    money (a_self fr') = money (a_self fr) /\
    economy (a_city fr') = economy (a_city fr) /\
    daily_stats (a_city fr') = daily_stats (a_city fr) /\
    daily_stats (a_city fr') !! "shop_count"
      = daily_stats (a_city fr) !! "shop_count".
Proof.
  intros Hty Hpoor. apply flt_not_le in Hpoor.
  rewrite act_unfold. unfold act_branch. rewrite Hty. simpl.
  run_monad. rewrite Hpoor. simpl.
  eexists. split; [reflexivity|]. simpl. repeat split; reflexivity.
Qed.

(** C7: a [crime] action always adds 1 to [crime_attempts]. When the draw
    is at least [0.3 + (0.5 - city.safety)] the attempt fails: the mood is
    the clamp of [mood - 0.2], [crime_prevented] gains 1 and safety is not
    modified. When the draw is below that value the attempt succeeds and
    safety drops by 0.05. *)
Theorem crime_outcomes (pl : PlannedAction) (fr : ActFrame G) (v w : float) :
  action_type pl = "crime" ->
  daily_stats (a_city fr) !! "crime_attempts" = Some v ->
  daily_stats (a_city fr) !! "crime_prevented" = Some w ->
  let draw := fst (random (a_rng fr)) in
  let success_prob := (0.3 + (0.5 - safety (a_city fr)))%float in
  exists fr',
    act pl fr = Some (tt, fr') /\
    daily_stats (a_city fr') !! "crime_attempts" = Some (v + 1)%float /\
    ((success_prob <=? draw)%float = true ->
       mood (a_self fr') = clamp01 (mood (a_self fr) - 0.2)%float /\
       daily_stats (a_city fr') !! "crime_prevented" = Some (w + 1)%float /\
       safety (a_city fr') = safety (a_city fr)) /\
    ((draw <? success_prob)%float = true ->
       safety (a_city fr') = (safety (a_city fr) - 0.05)%float /\
       daily_stats (a_city fr') !! "crime_prevented" = Some w).
Proof.
  intros Hty Hv Hw draw success_prob.
  rewrite act_unfold. unfold act_branch. rewrite Hty. simpl.
  run_monad. rewrite Hv. simpl.
  fold draw. fold success_prob.
  destruct (draw <? success_prob)%float eqn:Hdraw; simpl.
  - eexists. split; [reflexivity|]. simpl.
    split; [apply lookup_insert_eq|].
    split.
    + intros Hge. apply fle_not_lt in Hge. congruence.
    + intros _. split; [reflexivity|].
      rewrite lookup_insert_ne by discriminate. exact Hw.
  - rewrite lookup_insert_ne by discriminate. rewrite Hw. simpl.
    eexists. split; [reflexivity|]. simpl.
    split; [rewrite lookup_insert_ne by discriminate; apply lookup_insert_eq|].
    split.
    + intros _. split; [reflexivity|].
      split; [apply lookup_insert_eq | reflexivity].
    + discriminate.
Qed.

(** After [act] the agent's energy and mood are clamped. *)
Lemma act_clamps (pl : PlannedAction) (fr fr' : ActFrame G) :
  act pl fr = Some (tt, fr') ->
  in_unit (energy (a_self fr')) /\ in_unit (mood (a_self fr')).
Proof.
  rewrite act_unfold.
  destruct (act_branch pl fr) as [[desc fr1]|]; [|discriminate].
  intros Hact. inversion Hact; subst; clear Hact. simpl.
  split; apply clamp01_in_unit.
Qed.

(** [act] appends one entry, stamped with the day and the agent. *)
Lemma act_logs (pl : PlannedAction) (fr fr' : ActFrame G) :
  act pl fr = Some (tt, fr') ->
  exists entry,
    logs (a_city fr') = (logs (a_city fr) ++ [entry])%list /\
    entry_day entry = day (a_city fr) /\
    agent_id entry = id (a_self fr) /\
    agent_name entry = name (a_self fr) /\
    entry_role entry = role (a_self fr).
Proof.
  rewrite act_unfold.
  destruct (act_branch pl fr) as [[desc fr1]|] eqn:Hb; [|discriminate].
  destruct (act_branch_frame _ _ _ _ Hb) as (Hid & Hname & Hrole & Hday & Hlogs & _).
  intros Hact. inversion Hact; subst; clear Hact. simpl.
  eexists. split; [rewrite Hlogs; reflexivity|]. simpl. auto.
Qed.

(** What [act] keeps: identity of the agent, the day, the set of counters. *)
Lemma act_frame (pl : PlannedAction) (fr fr' : ActFrame G) :
  act pl fr = Some (tt, fr') ->
  id (a_self fr') = id (a_self fr) /\
  day (a_city fr') = day (a_city fr) /\
  dom (daily_stats (a_city fr')) = dom (daily_stats (a_city fr)).
Proof.
  rewrite act_unfold.
  destruct (act_branch pl fr) as [[desc fr1]|] eqn:Hb; [|discriminate].
  destruct (act_branch_frame _ _ _ _ Hb) as (Hid & _ & _ & Hday & _ & _ & Hdom).
  intros Hact. inversion Hact; subst; clear Hact. simpl. auto.
Qed.

(** A plan that is not a crime leaves both crime counters as they were. *)
Lemma act_no_crime (pl : PlannedAction) (fr fr' : ActFrame G) :
  action_type pl <> "crime" ->
  act pl fr = Some (tt, fr') ->
  daily_stats (a_city fr') !! "crime_attempts"
    = daily_stats (a_city fr) !! "crime_attempts" /\
  daily_stats (a_city fr') !! "crime_prevented"
    = daily_stats (a_city fr) !! "crime_prevented".
Proof.
  intros Hty. rewrite act_unfold.
  destruct (act_branch pl fr) as [[desc fr1]|] eqn:Hb; [|discriminate].
  destruct (act_branch_no_crime _ _ _ _ Hty Hb) as (_ & Ha & Hp & _).
  intros Hact. inversion Hact; subst; clear Hact. simpl. auto.
Qed.

End ActClaims.

(** ** Agent.plan *)

Section PlanFacts.

Context {G : Type} `{RandomSource G}.

(** [plan] always returns; it hands back the agent, the city and the context
    it was given, draws at most once, and chooses among five action types. *)
Lemma plan_result (fr : PlanFrame G) :
  exists pl,
    plan fr =
      Some (pl, {| p_self := p_self fr; p_city := p_city fr; p_ctx := p_ctx fr;
                   p_rng := if (energy (p_self fr) <? 0.3)%float
                            then p_rng fr else snd (random (p_rng fr)) |}) /\
    action_type pl ∈ ["work"; "shop"; "rest"; "patrol"; "socialize"].
Proof.
  destruct fr as [self c ctx g]. unfold plan. run_monad.
  destruct (energy self <? 0.3)%float; simpl.
  { eexists. split; [reflexivity|]. simpl. repeat constructor. }
  split_branches;
    repeat match goal with
    | |- context [if ?b then _ else _] => destruct b; simpl
    end;
    (eexists; split; [reflexivity|]; simpl; repeat constructor).
Qed.

(** C3: an agent whose energy is below 0.3 plans [rest], whatever its role,
    the city, the context and the state of the random source; no draw is
    made, the check comes before the dispatch on the role. *)
Theorem fatigue_override (fr : PlanFrame G) :
  (energy (p_self fr) <? 0.3)%float = true ->
  exists pl,
    plan fr = Some (pl, fr) /\
    action_type pl = "rest" /\
    pl = mk_plan "rest" None "Too tired, staying home.".
Proof.
  intros Htired. destruct fr as [self c ctx g]. simpl in Htired.
  unfold plan. run_monad. rewrite Htired. simpl.
  eexists. split; [reflexivity|]. split; reflexivity.
Qed.

(** C6: a shop owner with energy at least 0.3 draws one sample [p] and
    rests if the economy is below 80 and [p < 0.30], else runs the shop if
    [p < 0.75], else socializes at the market. In particular, with the
    economy below 80 and [0.30 <= p < 0.75] the plan is [shop]. *)
Theorem shop_owner_plan (fr : PlanFrame G) :
  role (p_self fr) = "shop_owner" ->
  (0.3 <=? energy (p_self fr))%float = true ->
  let p := fst (random (p_rng fr)) in
  let drawn := {| p_self := p_self fr; p_city := p_city fr; p_ctx := p_ctx fr;
                  p_rng := snd (random (p_rng fr)) |} in
  plan fr =
    Some (if (economy (p_city fr) <? 80)%float && (p <? 0.3)%float
          then mk_plan "rest" None "Economy looks bad."
          else if (p <? 0.75)%float then mk_plan "shop" (Some "store") ""
          else mk_plan "socialize" (Some "market") "",
          drawn) /\
  ((economy (p_city fr) <? 80)%float = true ->
   (0.3 <=? p)%float = true -> (p <? 0.75)%float = true ->
   plan fr = Some (mk_plan "shop" (Some "store") "", drawn)).
Proof.
  intros Hrole Henergy p drawn.
  apply fle_not_lt in Henergy.
  assert (Hplan : plan fr =
    Some (if (economy (p_city fr) <? 80)%float && (p <? 0.3)%float
          then mk_plan "rest" None "Economy looks bad."
          else if (p <? 0.75)%float then mk_plan "shop" (Some "store") ""
          else mk_plan "socialize" (Some "market") "",
          drawn)).
  { unfold plan. run_monad. rewrite Henergy, Hrole. simpl.
    fold p. fold drawn.
    destruct (economy (p_city fr) <? 80)%float, (p <? 0.3)%float; simpl;
      try reflexivity;
      destruct (p <? 0.75)%float; reflexivity. }
  split; [exact Hplan|].
  intros Hbad Hlo Hhi. rewrite Hplan.
  apply fle_not_lt in Hlo. rewrite Hbad, Hlo, Hhi. reflexivity.
Qed.

(** C9: [plan] mutates nothing. The agent (money, energy, mood and the
    rest), the city (day, economy, safety, happiness, counters, log) and the
    day context come back as they were given; only the random source may
    have advanced, by one draw, and only when the agent is not tired. *)
Theorem plan_mutates_nothing (fr : PlanFrame G) :
  exists pl fr',
    plan fr = Some (pl, fr') /\
    p_self fr' = p_self fr /\
    p_city fr' = p_city fr /\
    p_ctx fr' = p_ctx fr /\
    p_rng fr' = if (energy (p_self fr) <? 0.3)%float
                then p_rng fr else snd (random (p_rng fr)).
Proof.
  destruct (plan_result fr) as (pl & Hplan & _).
  eexists _, _. split; [exact Hplan|]. simpl. repeat split; reflexivity.
Qed.

End PlanFacts.

(** ** The engine: planning *)

Section PlanningFacts.

Context {G : Type} `{RandomSource G}.

(** Planning for the agent at position [i] changes the engine's random
    source at most; the plan is of one of the five planned types. *)
Lemma call_plan_result (i : nat) (ctx : DayContext) (e : Engine G) (a : Agent) :
  agents e !! i = Some a ->
  exists pl g,
    call_plan i ctx e
      = Some ((pl, ctx), {| rng := g; city := city e; agents := agents e |}) /\
    action_type pl ∈ ["work"; "shop"; "rest"; "patrol"; "socialize"].
Proof.
  intros Ha. unfold call_plan. run_monad. rewrite Ha.
  destruct (plan_result {| p_self := a; p_city := city e; p_ctx := ctx;
                           p_rng := rng e |}) as (pl & -> & Hty).
  simpl. rewrite (list_insert_id _ _ _ Ha). eauto.
Qed.

(** The planning loop over positions of the roster: the engine keeps its
    city and agents, every visited agent's id receives a plan, bindings for
    other ids are kept, and only the five planned types are written. *)
Lemma planning_loop_result (idxs : list nat) :
  forall (ctx : DayContext) (plans : gmap Z PlannedAction) (e : Engine G),
  Forall (fun i => is_Some (agents e !! i)) idxs ->
  exists plans' g,
    planning_loop idxs ctx plans e
      = Some ((plans', ctx), {| rng := g; city := city e; agents := agents e |}) /\
    (forall k, is_Some (plans' !! k) <->
       is_Some (plans !! k) \/
       exists i a, i ∈ idxs /\ agents e !! i = Some a /\ id a = k) /\
    (forall k pl, plans' !! k = Some pl ->
       plans !! k = Some pl \/
       action_type pl ∈ ["work"; "shop"; "rest"; "patrol"; "socialize"]).
Proof.
  induction idxs as [|i rest IH]; intros ctx plans e Hidx.
  - simpl. exists plans, (rng e). destruct e; simpl.
    split; [reflexivity|]. split.
    + intros k. split; [auto|]. intros [Hk|(i & a & Hi & _)]; [exact Hk|].
      inversion Hi.
    + auto.
  - inversion Hidx as [|? ? [a Ha] Hrest]; subst.
    destruct (call_plan_result i ctx e a Ha) as (pl & g & Hcall & Hty).
    simpl. unfold bind at 1. rewrite Hcall.
    unfold bind at 1. unfold agent_at at 1. simpl. rewrite Ha. simpl.
    destruct (IH ctx (<[id a := pl]> plans)
                {| rng := g; city := city e; agents := agents e |} Hrest)
      as (plans' & g' & Hloop & Hdom & Hallowed).
    simpl in *. exists plans', g'. split; [exact Hloop|]. split.
    + intros k. rewrite Hdom. rewrite lookup_insert_is_Some'. split.
      * intros [[Hk|Hk]|(j & b & Hj & Hb & Hid)].
        -- right. exists i, a. split; [left|]. auto.
        -- left. exact Hk.
        -- right. exists j, b. split; [right; exact Hj|]. auto.
      * intros [Hk|(j & b & Hj & Hb & Hid)].
        -- left. right. exact Hk.
        -- apply elem_of_cons in Hj as [->|Hj].
           ++ left. left. congruence.
           ++ right. eauto.
    + intros k pl' Hk. destruct (Hallowed k pl' Hk) as [Hins|Hok]; [|auto].
      destruct (decide (id a = k)) as [Heq|Hne].
      * subst k. rewrite lookup_insert_eq in Hins. inversion Hins; subst. auto.
      * rewrite lookup_insert_ne in Hins by exact Hne. auto.
Qed.

End PlanningFacts.

(** ** The engine: actions *)

Section ActionFacts.

Context {G : Type} `{RandomSource G}.

Lemma has_counters_dom (m m' : gmap string float) :
  dom m' = dom m -> has_counters m -> has_counters m'.
Proof.
  intros Hdom Hm k Hk. apply elem_of_dom. rewrite Hdom.
  apply elem_of_dom. exact (Hm k Hk).
Qed.

Lemma has_counters_zero : has_counters zero_stats.
Proof.
  intros k Hk. unfold stat_keys in Hk.
  repeat (apply elem_of_cons in Hk as [->|Hk]; [vm_compute; eauto|]).
  inversion Hk.
Qed.

(** One call of [act] from the actions loop. *)
Lemma call_act_result (i : nat) (pl : PlannedAction) (e : Engine G) (a : Agent) :
  agents e !! i = Some a ->
  has_counters (daily_stats (city e)) ->
  exists a' c' g' entry,
    call_act i pl e
      = Some (tt, {| rng := g'; city := c'; agents := <[i := a']> (agents e) |}) /\
    id a' = id a /\
    day c' = day (city e) /\
    dom (daily_stats c') = dom (daily_stats (city e)) /\
    logs c' = (logs (city e) ++ [entry])%list /\
    entry_day entry = day (city e) /\
    agent_id entry = id a /\
    (action_type pl <> "crime" ->
       daily_stats c' !! "crime_attempts"
         = daily_stats (city e) !! "crime_attempts" /\
       daily_stats c' !! "crime_prevented"
         = daily_stats (city e) !! "crime_prevented").
Proof.
  intros Ha Hk. unfold call_act. run_monad. rewrite Ha.
  set (fr := {| a_self := a; a_city := city e; a_rng := rng e |}).
  destruct (act_total pl fr Hk) as [[[] fr'] Hact]. rewrite Hact.
  destruct (act_frame _ _ _ Hact) as (Hid & Hday & Hdom).
  destruct (act_logs _ _ _ Hact) as (entry & Hlogs & Heday & Heid & _).
  exists (a_self fr'), (a_city fr'), (a_rng fr'), entry.
  split; [reflexivity|].
  do 6 (split; [assumption|]).
  intros Hty. exact (act_no_crime _ _ _ Hty Hact).
Qed.

(** The actions loop over positions of the roster. Every visited agent whose
    id has a plan acts once: the ids of the roster, the day and the set of
    counters are kept, and one log entry per visited position is appended,
    stamped with the day and the agent's id. *)
Lemma actions_loop_result (idxs : list nat) :
  forall (plans : gmap Z PlannedAction) (e : Engine G),
  Forall (fun i => exists k, (id <$> agents e) !! i = Some k /\
                             is_Some (plans !! k)) idxs ->
  has_counters (daily_stats (city e)) ->
  exists e' new,
    actions_loop idxs plans e = Some (tt, e') /\
    id <$> agents e' = id <$> agents e /\
    day (city e') = day (city e) /\
    dom (daily_stats (city e')) = dom (daily_stats (city e)) /\
    logs (city e') = (logs (city e) ++ new)%list /\
    Forall2 (fun i entry => entry_day entry = day (city e) /\
                            (id <$> agents e) !! i = Some (agent_id entry))
            idxs new /\
    ((forall k pl, plans !! k = Some pl -> action_type pl <> "crime") ->
       daily_stats (city e') !! "crime_attempts"
         = daily_stats (city e) !! "crime_attempts" /\
       daily_stats (city e') !! "crime_prevented"
         = daily_stats (city e) !! "crime_prevented").
Proof.
  induction idxs as [|i rest IH]; intros plans e Hidx Hk.
  - simpl. exists e, []. rewrite app_nil_r.
    repeat split; auto.
  - inversion Hidx as [|? ? (k & Hi & [pl Hpl]) Hrest]; subst.
    rewrite list_lookup_fmap in Hi.
    destruct (agents e !! i) as [a|] eqn:Ha; [|discriminate].
    simpl in Hi. inversion Hi; subst k; clear Hi.
    destruct (call_act_result i pl e a Ha Hk)
      as (a' & c' & g' & entry & Hcall & Hid & Hday & Hdom & Hlogs & Heday
          & Heid & Hcrime).
    set (e1 := {| rng := g'; city := c'; agents := <[i := a']> (agents e) |}).
    assert (Hids : id <$> agents e1 = id <$> agents e).
    { simpl. rewrite list_fmap_insert, Hid. apply list_insert_id.
      rewrite list_lookup_fmap, Ha. reflexivity. }
    destruct (IH plans e1) as (e' & new & Hloop & Hids' & Hday' & Hdom' & Hlogs'
                               & Hnew & Hcrime').
    { rewrite Hids. exact Hrest. }
    { apply (has_counters_dom (daily_stats (city e))); assumption. }
    exists e', (entry :: new).
    split.
    { simpl. unfold bind at 1. unfold agent_at at 1. rewrite Ha. simpl.
      rewrite Hpl. unfold bind at 1. rewrite Hcall.
      unfold bind at 1. unfold last_entry at 1. simpl.
      rewrite Hlogs, last_snoc. exact Hloop. }
    split; [congruence|].
    split; [simpl in *; congruence|].
    split; [simpl in *; congruence|].
    split.
    { rewrite Hlogs'. simpl. rewrite Hlogs, <- app_assoc. reflexivity. }
    split.
    { constructor.
      - split; [exact Heday|]. rewrite list_lookup_fmap, Ha, Heid. reflexivity.
      - rewrite Hids in Hnew. simpl in Hnew. rewrite Hday in Hnew. exact Hnew. }
    intros Hplans.
    destruct (Hcrime' Hplans) as [E1 E2]. simpl in E1, E2.
    destruct (Hcrime (Hplans _ _ Hpl)) as [E3 E4].
    split; congruence.
Qed.

End ActionFacts.

(** ** The engine: context, city update and the day cycle *)

Section DayFacts.

Context {G : Type} `{RandomSource G}.

Lemma day_context_result (e : Engine G) :
  exists ctx g,
    _day_context e = Some (ctx, {| rng := g; city := city e; agents := agents e |}) /\
    ctx_day ctx = day (city e).
Proof.
  unfold _day_context, _random_weather, engine_choice. run_monad.
  pose proof (randbelow_lt 4 (rng e) ltac:(lia)) as Hlt.
  destruct (lookup_lt_is_Some_2 ["sunny"; "cloudy"; "rainy"; "windy"]
              (fst (randbelow 4 (rng e))) Hlt) as [w Hw].
  rewrite Hw. simpl. eexists _, _. split; reflexivity.
Qed.

(** The update rule in closed form, for counters that are all present. *)
Lemma city_update_result (e : Engine G)
    (work_count shop_count patrol_count crime_attempts crime_prevented
     social_interactions rest_count : float) :
  daily_stats (city e) !! "work_count" = Some work_count ->
  daily_stats (city e) !! "shop_count" = Some shop_count ->
  daily_stats (city e) !! "patrol_count" = Some patrol_count ->
  daily_stats (city e) !! "crime_attempts" = Some crime_attempts ->
  daily_stats (city e) !! "crime_prevented" = Some crime_prevented ->
  daily_stats (city e) !! "social_interactions" = Some social_interactions ->
  daily_stats (city e) !! "rest_count" = Some rest_count ->
  _city_update e =
    Some (tt,
      {| rng := rng e;
         city :=
           {| day := day (city e);
              economy :=
                ((economy (city e) + (0.5 * work_count + 0.3 * shop_count))
                 * 0.995)%float;
              safety :=
                clamp01 (safety (city e) + 0.01 * patrol_count
                         - 0.03 * crime_attempts + 0.02 * crime_prevented)%float;
              happiness :=
                clamp01 (happiness (city e) + 0.01 * social_interactions
                         + 0.005 * rest_count - 0.015 * crime_attempts)%float;
              daily_stats := daily_stats (city e);
              logs := logs (city e) |};
         agents := agents e |}).
Proof.
  intros E1 E2 E3 E4 E5 E6 E7. unfold _city_update. run_monad.
  rewrite E1; simpl. rewrite E2; simpl. rewrite E3; simpl.
  rewrite E4; simpl. rewrite E5; simpl. rewrite E6; simpl.
  rewrite E7; simpl. rewrite E4; simpl. reflexivity.
Qed.

(** Whenever the update returns, safety and happiness are clamped and the
    rest of the engine, economy apart, is as before. *)
Lemma city_update_clamps (e e' : Engine G) :
  _city_update e = Some (tt, e') ->
  in_unit (safety (city e')) /\ in_unit (happiness (city e')) /\
  rng e' = rng e /\ agents e' = agents e /\
  day (city e') = day (city e) /\ logs (city e') = logs (city e) /\
  daily_stats (city e') = daily_stats (city e).
Proof.
  unfold _city_update. intros Hup. run_monad. split_lookups.
  inversion Hup; subst; clear Hup. simpl.
  split; [apply clamp01_in_unit|]. split; [apply clamp01_in_unit|].
  repeat split; reflexivity.
Qed.

Lemma city_update_total (e : Engine G) :
  has_counters (daily_stats (city e)) -> is_Some (_city_update e).
Proof.
  intros Hk.
  assert (Hin : forall k, k ∈ stat_keys ->
                 exists v, daily_stats (city e) !! k = Some v).
  { intros k Hk'. destruct (Hk k Hk') as [v Hv]. eauto. }
  destruct (Hin "work_count") as [v1 E1]; [repeat constructor|].
  destruct (Hin "shop_count") as [v2 E2]; [repeat constructor|].
  destruct (Hin "patrol_count") as [v3 E3]; [repeat constructor|].
  destruct (Hin "crime_attempts") as [v4 E4]; [repeat constructor|].
  destruct (Hin "crime_prevented") as [v5 E5]; [repeat constructor|].
  destruct (Hin "social_interactions") as [v6 E6]; [repeat constructor|].
  destruct (Hin "rest_count") as [v7 E7]; [repeat constructor|].
  rewrite (city_update_result e _ _ _ _ _ _ _ E1 E2 E3 E4 E5 E6 E7). eauto.
Qed.

(** One simulated day, from any engine state: it always completes; the
    plans cover exactly the ids of the roster and are of the five planned
    types; one log entry per roster position is appended, stamped with the
    day and that agent's id; both crime counters end the day at 0; safety
    and happiness end it clamped; the day number goes up by one. *)
Lemma day_cycle_result (e : Engine G) :
  exists plans e' new,
    day_cycle e = Some (plans, e') /\
    id <$> agents e' = id <$> agents e /\
    day (city e') = (day (city e) + 1)%Z /\
    logs (city e') = (logs (city e) ++ new)%list /\
    Forall2 (fun i entry => entry_day entry = day (city e) /\
                            (id <$> agents e) !! i = Some (agent_id entry))
            (seq 0 (length (agents e))) new /\
    (forall k, is_Some (plans !! k) <-> k ∈ id <$> agents e) /\
    (forall k pl, plans !! k = Some pl ->
       action_type pl ∈ ["work"; "shop"; "rest"; "patrol"; "socialize"]) /\
    daily_stats (city e') !! "crime_attempts" = Some 0%float /\
    daily_stats (city e') !! "crime_prevented" = Some 0%float /\
    in_unit (safety (city e')) /\ in_unit (happiness (city e')).
Proof.
  unfold day_cycle. unfold bind at 1. unfold _day_start, upd_engine_city, modify.
  set (e0 := {| rng := rng e; city := reset_daily_stats (city e);
                agents := agents e |}).
  destruct (day_context_result e0) as (ctx & g1 & Hctx & _).
  unfold bind at 1. rewrite Hctx.
  set (e1 := {| rng := g1; city := city e0; agents := agents e0 |}).
  (* planning *)
  assert (Hidx : Forall (fun i => is_Some (agents e1 !! i))
                        (seq 0 (length (agents e1)))).
  { apply Forall_forall. intros i Hi. apply elem_of_seq in Hi.
    apply lookup_lt_is_Some_2. lia. }
  destruct (planning_loop_result _ ctx ∅ e1 Hidx)
    as (plans & g2 & Hplan & Hdom & Hallowed).
  unfold bind at 1. unfold _citizen_planning at 1.
  unfold bind at 1, gets at 1. rewrite Hplan.
  set (e2 := {| rng := g2; city := city e1; agents := agents e1 |}).
  assert (Hcover : forall k, is_Some (plans !! k) <-> k ∈ id <$> agents e).
  { intros k. rewrite Hdom. rewrite lookup_empty. split.
    - intros [[? Hk]|(i & a & _ & Ha & Hid)]; [discriminate|].
      apply list_elem_of_fmap. exists a. split; [auto|].
      apply list_elem_of_lookup. eauto.
    - intros Hk. apply list_elem_of_fmap in Hk as (a & -> & Ha).
      apply list_elem_of_lookup in Ha as [i Ha]. right. exists i, a.
      split; [|auto]. apply elem_of_seq. simpl.
      apply lookup_lt_Some in Ha. lia. }
  assert (Hfive : forall k pl, plans !! k = Some pl ->
            action_type pl ∈ ["work"; "shop"; "rest"; "patrol"; "socialize"]).
  { intros k pl Hk. destruct (Hallowed k pl Hk) as [Hk'|Hok]; [|exact Hok].
    rewrite lookup_empty in Hk'. discriminate. }
  (* actions *)
  assert (Hidx2 : Forall (fun i => exists k, (id <$> agents e2) !! i = Some k /\
                                    is_Some (plans !! k))
                         (seq 0 (length (agents e2)))).
  { apply Forall_forall. intros i Hi. apply elem_of_seq in Hi. simpl in Hi.
    destruct (lookup_lt_is_Some_2 (agents e) i ltac:(lia)) as [a Ha].
    exists (id a). simpl. rewrite list_lookup_fmap, Ha. split; [reflexivity|].
    apply Hcover. apply list_elem_of_fmap. exists a. split; [auto|].
    apply list_elem_of_lookup. eauto. }
  destruct (actions_loop_result _ plans e2 Hidx2 has_counters_zero)
    as (e3 & new & Hacts & Hids & Hday & Hdom3 & Hlogs & Hnew & Hcrime).
  simpl fst. simpl snd.
  unfold bind at 1. unfold _citizen_actions at 1.
  unfold bind at 1, gets at 1. rewrite Hacts.
  (* city update *)
  assert (Hk3 : has_counters (daily_stats (city e3))).
  { apply (has_counters_dom _ _ Hdom3). apply has_counters_zero. }
  destruct (city_update_total e3 Hk3) as [[[] e4] Hup].
  destruct (city_update_clamps _ _ Hup)
    as (Hs & Hh & Hrng4 & Hag4 & Hday4 & Hlogs4 & Hstats4).
  unfold bind at 1. rewrite Hup.
  (* reporting, next day *)
  unfold bind, _reporting, _next_day, upd_engine_city, modify, gets, ret.
  eexists plans, _, new. split; [reflexivity|]. simpl.
  assert (Hnocrime : forall k pl, plans !! k = Some pl ->
                       action_type pl <> "crime").
  { intros k pl Hk Hty. specialize (Hfive k pl Hk). rewrite Hty in Hfive.
    repeat (apply elem_of_cons in Hfive as [Hfive|Hfive]; [discriminate|]).
    inversion Hfive. }
  destruct (Hcrime Hnocrime) as [Hca Hcp]. simpl in *.
  rewrite Hag4, Hday4, Hlogs4, Hstats4.
  split; [exact Hids|]. split; [rewrite Hday; reflexivity|].
  split; [exact Hlogs|]. split; [exact Hnew|].
  split; [exact Hcover|]. split; [exact Hfive|].
  split; [rewrite Hca; reflexivity|]. split; [rewrite Hcp; reflexivity|].
  split; assumption.
Qed.

End DayFacts.

(** ** The engine: whole runs *)

Section RunFacts.

Context {G : Type} `{RandomSource G}.

(** A run of [n] days always completes; it yields [n] plan dicts of the five
    planned types, keeps the ids of the roster, advances the day by [n] and
    appends [n] entries per agent to the log. *)
Lemma run_loop_result (n : nat) :
  forall e : Engine G,
  exists days_plans e' new,
    run_loop n e = Some (days_plans, e') /\
    length days_plans = n /\
    Forall (fun plans => forall k pl, plans !! k = Some pl ->
              action_type pl ∈ ["work"; "shop"; "rest"; "patrol"; "socialize"])
           days_plans /\
    id <$> agents e' = id <$> agents e /\
    day (city e') = (day (city e) + Z.of_nat n)%Z /\
    logs (city e') = (logs (city e) ++ new)%list /\
    length new = (n * length (agents e))%nat /\
    ((0 < n)%nat ->
       daily_stats (city e') !! "crime_attempts" = Some 0%float /\
       daily_stats (city e') !! "crime_prevented" = Some 0%float).
Proof.
  induction n as [|n IH]; intros e.
  - exists [], e, []. simpl. rewrite app_nil_r.
    repeat split; auto; lia.
  - destruct (day_cycle_result e)
      as (plans & e1 & new1 & Hday & Hids1 & Hd1 & Hlogs1 & Hnew1 & _ & Hfive
          & Hca & Hcp & _).
    destruct (IH e1)
      as (later & e' & new & Hrun & Hlen & Hall & Hids & Hd & Hlogs & Hnew & Hcrime).
    exists (plans :: later), e', (new1 ++ new)%list.
    split.
    { simpl. unfold bind at 1. rewrite Hday.
      unfold bind at 1. rewrite Hrun. reflexivity. }
    split; [simpl; congruence|].
    split; [constructor; assumption|].
    split; [congruence|].
    split; [rewrite Hd, Hd1; lia|].
    split; [rewrite Hlogs, Hlogs1, app_assoc; reflexivity|].
    split.
    { rewrite length_app, Hnew. apply Forall2_length in Hnew1.
      rewrite length_seq in Hnew1. rewrite <- Hnew1.
      assert (Hl : length (agents e1) = length (agents e)).
      { rewrite <- (length_fmap id (agents e1)), Hids1. apply length_fmap. }
      rewrite Hl. simpl. reflexivity. }
    intros _. destruct n as [|n'].
    + simpl in Hrun. unfold ret in Hrun. inversion Hrun; subst. auto.
    + apply Hcrime. lia.
Qed.

End RunFacts.

(** ** The claims on the engine *)

Section EngineClaims.

Context {G : Type} `{RandomSource G}.

(** C2: one application of the CITY_UPDATE phase, for any city and any
    values of the seven counters, gives
    [economy' = (economy + (0.5*work_count + 0.3*shop_count)) * 0.995]
    (decay after the additive term, no clamp),
    [safety' = clamp01 (safety + 0.01*patrol_count - 0.03*crime_attempts
                        + 0.02*crime_prevented)] and
    [happiness' = clamp01 (happiness + 0.01*social_interactions
                           + 0.005*rest_count - 0.015*crime_attempts)],
    the sums being taken in binary64 in the order the source takes them. *)
Theorem city_update_rule (e : Engine G)
    (work_count shop_count patrol_count crime_attempts crime_prevented
     social_interactions rest_count : float) :
  daily_stats (city e) !! "work_count" = Some work_count ->
  daily_stats (city e) !! "shop_count" = Some shop_count ->
  daily_stats (city e) !! "patrol_count" = Some patrol_count ->
  daily_stats (city e) !! "crime_attempts" = Some crime_attempts ->
  daily_stats (city e) !! "crime_prevented" = Some crime_prevented ->
  daily_stats (city e) !! "social_interactions" = Some social_interactions ->
  daily_stats (city e) !! "rest_count" = Some rest_count ->
  exists e',
    _city_update e = Some (tt, e') /\
    economy (city e') =
      ((economy (city e) + (0.5 * work_count + 0.3 * shop_count)) * 0.995)%float /\
    safety (city e') =
      clamp01 (safety (city e) + 0.01 * patrol_count - 0.03 * crime_attempts
               + 0.02 * crime_prevented)%float /\
    happiness (city e') =
      clamp01 (happiness (city e) + 0.01 * social_interactions
               + 0.005 * rest_count - 0.015 * crime_attempts)%float.
Proof.
  intros E1 E2 E3 E4 E5 E6 E7.
  rewrite (city_update_result e _ _ _ _ _ _ _ E1 E2 E3 E4 E5 E6 E7).
  eexists. split; [reflexivity|]. simpl. repeat split; reflexivity.
Qed.

(** C4: whenever [act] returns, the agent's energy and mood lie in
    [0.0, 1.0], for every agent and every planned action, and with the seven
    counters present [act] does return; whenever the CITY_UPDATE phase
    returns, safety and happiness lie in [0.0, 1.0], and with the counters
    present it does return. Economy is not constrained: the update can leave
    it above 1 and can leave it below 0. *)
Theorem bounded_after_update :
  (forall (pl : PlannedAction) (fr fr' : ActFrame G),
     act pl fr = Some (tt, fr') ->
     in_unit (energy (a_self fr')) /\ in_unit (mood (a_self fr'))) /\
  (forall (pl : PlannedAction) (fr : ActFrame G),
     has_counters (daily_stats (a_city fr)) -> is_Some (act pl fr)) /\
  (forall e e' : Engine G,
     _city_update e = Some (tt, e') ->
     in_unit (safety (city e')) /\ in_unit (happiness (city e'))) /\
  (forall e : Engine G,
     has_counters (daily_stats (city e)) -> is_Some (_city_update e)) /\
  (exists e e' : Engine G,
     _city_update e = Some (tt, e') /\ (1 <? economy (city e'))%float = true) /\
  (exists e e' : Engine G,
     _city_update e = Some (tt, e') /\ (economy (city e') <? 0)%float = true).
Proof.
  split; [exact act_clamps|].
  split; [exact act_total|].
  split.
  { intros e e' Hup. destruct (city_update_clamps _ _ Hup) as (Hs & Hh & _). auto. }
  split; [exact city_update_total|].
  split.
  - exists {| rng := seed_rng 0; city := reset_daily_stats CityState_default;
              agents := [] |}.
    eexists. split.
    + apply (city_update_result _ 0 0 0 0 0 0 0); reflexivity.
    + reflexivity.
  - exists {| rng := seed_rng 0;
              city := set_economy (-1) (reset_daily_stats CityState_default);
              agents := [] |}.
    eexists. split.
    + apply (city_update_result _ 0 0 0 0 0 0 0); reflexivity.
    + reflexivity.
Qed.

(** C8: every call of [act] that returns appends exactly one entry to
    [city.logs], whose day is the city's day at that moment, and touches no
    earlier entry. Over a simulated day, which always completes, the plans
    cover exactly the ids of the roster (one plan per agent when the ids are
    distinct) and exactly one entry per agent is appended, in roster order,
    stamped with the day. Over a whole run the log only grows. *)
Theorem one_entry_per_action :
  (forall (pl : PlannedAction) (fr fr' : ActFrame G),
     act pl fr = Some (tt, fr') ->
     exists entry,
       logs (a_city fr') = (logs (a_city fr) ++ [entry])%list /\
       entry_day entry = day (a_city fr) /\
       agent_id entry = id (a_self fr)) /\
  (forall e : Engine G,
     exists plans e' new,
       day_cycle e = Some (plans, e') /\
       (forall k, is_Some (plans !! k) <-> k ∈ id <$> agents e) /\
       (NoDup (id <$> agents e) -> size plans = length (agents e)) /\
       logs (city e') = (logs (city e) ++ new)%list /\
       length new = length (agents e) /\
       (forall i a, agents e !! i = Some a ->
          exists entry, new !! i = Some entry /\
                        agent_id entry = id a /\
                        entry_day entry = day (city e))) /\
  (forall (days : Z) (e : Engine G),
     exists days_plans e',
       run days e = Some (days_plans, e') /\
       logs (city e) `prefix_of` logs (city e')).
Proof.
  split.
  { intros pl fr fr' Hact.
    destruct (act_logs _ _ _ Hact) as (entry & Hlogs & Hday & Hid & _). eauto. }
  split.
  { intros e.
    destruct (day_cycle_result e)
      as (plans & e' & new & Hday & _ & _ & Hlogs & Hnew & Hcover & _).
    exists plans, e', new. split; [exact Hday|]. split; [exact Hcover|].
    split.
    { intros Hnodup. rewrite <- size_dom.
      assert (Hdom : dom plans = list_to_set (id <$> agents e)).
      { apply set_eq. intros k.
        rewrite elem_of_dom, Hcover, elem_of_list_to_set. reflexivity. }
      rewrite Hdom, size_list_to_set by exact Hnodup. apply length_fmap. }
    split; [exact Hlogs|].
    split.
    { apply Forall2_length in Hnew. rewrite length_seq in Hnew. auto. }
    intros i a Ha.
    assert (Hi : seq 0 (length (agents e)) !! i = Some i).
    { apply lookup_lt_Some in Ha. rewrite lookup_seq_lt by exact Ha. reflexivity. }
    destruct (Forall2_lookup_l _ _ _ _ _ Hnew Hi) as (entry & Hentry & Heday & Heid).
    exists entry. split; [exact Hentry|].
    rewrite list_lookup_fmap, Ha in Heid. simpl in Heid.
    inversion Heid. auto. }
  intros days e. unfold run.
  destruct (run_loop_result (Z.to_nat days) e)
    as (ps & e' & new & Hrun & _ & _ & _ & _ & Hlogs & _).
  exists ps, e'. split; [exact Hrun|]. exists new. exact Hlogs.
Qed.

(** C10: [plan] only ever returns one of [work], [shop], [rest], [patrol],
    [socialize], never [crime], for any role string, energy, city, context
    and draw. Hence in a day of the engine no plan handed to [act] is a
    crime and both crime counters end the day at 0; the same holds at the
    end of any run of at least one day. *)
Theorem plan_never_crime :
  (forall (fr fr' : PlanFrame G) (pl : PlannedAction),
     plan fr = Some (pl, fr') ->
     action_type pl ∈ ["work"; "shop"; "rest"; "patrol"; "socialize"] /\
     action_type pl <> "crime") /\
  (forall e : Engine G,
     exists plans e',
       day_cycle e = Some (plans, e') /\
       (forall k pl, plans !! k = Some pl -> action_type pl <> "crime") /\
       daily_stats (city e') !! "crime_attempts" = Some 0%float /\
       daily_stats (city e') !! "crime_prevented" = Some 0%float) /\
  (forall (days : Z) (e : Engine G),
     (0 < days)%Z ->
     exists days_plans e',
       run days e = Some (days_plans, e') /\
       Forall (fun plans => forall k pl, plans !! k = Some pl ->
                 action_type pl <> "crime") days_plans /\
       daily_stats (city e') !! "crime_attempts" = Some 0%float /\
       daily_stats (city e') !! "crime_prevented" = Some 0%float).
Proof.
  assert (Hnot : forall ty : string,
            ty ∈ ["work"; "shop"; "rest"; "patrol"; "socialize"] ->
            ty <> "crime").
  { intros ty Hty ->.
    repeat (apply elem_of_cons in Hty as [Hty|Hty]; [discriminate|]).
    inversion Hty. }
  split.
  { intros fr fr' pl Hplan.
    destruct (plan_result fr) as (pl' & Hplan' & Hty).
    rewrite Hplan in Hplan'. inversion Hplan'; subst. auto. }
  split.
  { intros e.
    destruct (day_cycle_result e)
      as (plans & e' & new & Hday & _ & _ & _ & _ & _ & Hfive & Hca & Hcp & _).
    exists plans, e'. split; [exact Hday|].
    split; [|auto]. intros k pl Hk. apply Hnot. exact (Hfive k pl Hk). }
  intros days e Hdays. unfold run.
  destruct (run_loop_result (Z.to_nat days) e)
    as (ps & e' & new & Hrun & _ & Hall & _ & _ & _ & _ & Hcrime).
  exists ps, e'. split; [exact Hrun|].
  split.
  { eapply Forall_impl; [exact Hall|]. intros plans Hfive k pl Hk.
    apply Hnot. exact (Hfive k pl Hk). }
  apply Hcrime. lia.
Qed.

End EngineClaims.

(** ** Two runs on related random sources *)

Section TwoRuns.

Context {G1 G2 : Type} `{RandomSource G1} `{RandomSource G2}.

Variable R : G1 -> G2 -> Prop.

Hypothesis draws : same_draws R.

Lemma agree_bind {A B : Type} (m1 : M (Engine G1) A) (m2 : M (Engine G2) A)
    (k1 : A -> M (Engine G1) B) (k2 : A -> M (Engine G2) B) e1 e2 :
  agree R (m1 e1) (m2 e2) ->
  (forall a e1' e2', same_world R e1' e2' -> agree R (k1 a e1') (k2 a e2')) ->
  agree R (bind m1 k1 e1) (bind m2 k2 e2).
Proof.
  unfold bind, agree at 1.
  destruct (m1 e1) as [[a1 e1']|], (m2 e2) as [[a2 e2']|]; simpl;
    try tauto.
  intros [-> Hw] Hk. exact (Hk _ _ _ Hw).
Qed.

Lemma agree_ret {A : Type} (a : A) e1 e2 :
  same_world R e1 e2 -> agree R (ret a e1) (ret a e2).
Proof. intros Hw. simpl. split; [reflexivity|exact Hw]. Qed.

Lemma agree_upd_city (f : CityState -> CityState) e1 e2 :
  same_world R e1 e2 -> agree R (upd_engine_city f e1) (upd_engine_city f e2).
Proof.
  intros (Hr & Hc & Ha). simpl. split; [reflexivity|].
  repeat split; simpl; congruence.
Qed.

Lemma agree_city e1 e2 :
  same_world R e1 e2 -> agree R (gets city e1) (gets city e2).
Proof.
  intros (Hr & Hc & Ha). simpl. split; [exact Hc|]. repeat split; assumption.
Qed.

Lemma agree_random e1 e2 :
  same_world R e1 e2 -> agree R (engine_random e1) (engine_random e2).
Proof.
  intros (Hr & Hc & Ha). destruct draws as [Hrandom _].
  destruct (Hrandom _ _ Hr) as [Hp Hr']. simpl.
  split; [exact Hp|]. repeat split; simpl; assumption.
Qed.

Lemma agree_choice (seq : list string) e1 e2 :
  same_world R e1 e2 -> agree R (engine_choice seq e1) (engine_choice seq e2).
Proof.
  intros (Hr & Hc & Ha). destruct draws as [_ Hbelow].
  destruct (Hbelow (length seq) _ _ Hr) as [Hi Hr'].
  unfold engine_choice. rewrite Hi.
  destruct (seq !! _); simpl; [|exact I].
  split; [reflexivity|]. repeat split; simpl; assumption.
Qed.

Lemma agree_agent_at (i : nat) e1 e2 :
  same_world R e1 e2 -> agree R (agent_at i e1) (agent_at i e2).
Proof.
  intros Hw. unfold agent_at. destruct Hw as (Hr & Hc & Ha). rewrite Ha.
  destruct (agents e2 !! i); simpl; [|exact I].
  split; [reflexivity|]. repeat split; assumption.
Qed.

Lemma agree_stat (key : string) e1 e2 :
  same_world R e1 e2 -> agree R (stat key e1) (stat key e2).
Proof.
  intros Hw. unfold stat. destruct Hw as (Hr & Hc & Ha). rewrite Hc.
  destruct (daily_stats (city e2) !! key); simpl; [|exact I].
  split; [reflexivity|]. repeat split; assumption.
Qed.

Lemma agree_last_entry e1 e2 :
  same_world R e1 e2 -> agree R (last_entry e1) (last_entry e2).
Proof.
  intros Hw. unfold last_entry. destruct Hw as (Hr & Hc & Ha). rewrite Hc.
  destruct (last (logs (city e2))); simpl; [|exact I].
  split; [reflexivity|]. repeat split; assumption.
Qed.

(** [plan] on the same agent, city and context, with related sources:
    the same plan, and related sources after. *)
Lemma plan_related (self : Agent) (c : CityState) (ctx : DayContext) g1 g2 :
  R g1 g2 ->
  exists pl g1' g2',
    plan {| p_self := self; p_city := c; p_ctx := ctx; p_rng := g1 |}
      = Some (pl, {| p_self := self; p_city := c; p_ctx := ctx; p_rng := g1' |}) /\
    plan {| p_self := self; p_city := c; p_ctx := ctx; p_rng := g2 |}
      = Some (pl, {| p_self := self; p_city := c; p_ctx := ctx; p_rng := g2' |}) /\
    R g1' g2'.
Proof.
  intros Hr. destruct draws as [Hrandom _].
  destruct (Hrandom _ _ Hr) as [Hp Hr'].
  unfold plan. run_monad.
  destruct (energy self <? 0.3)%float; simpl.
  { eexists _, _, _. split; [reflexivity|]. split; [reflexivity|]. exact Hr. }
  split_branches; simpl; rewrite Hp;
    repeat match goal with
    | |- context [if ?b then _ else _] => destruct b; simpl
    end;
    (eexists _, _, _; split; [reflexivity|]; split; [reflexivity|]; exact Hr').
Qed.

(** [act] on the same agent and city, with related sources: both raise, or
    both return the same agent and city, with related sources after. *)
Lemma act_related (pl : PlannedAction) (self : Agent) (c : CityState) g1 g2 :
  R g1 g2 ->
  match act pl {| a_self := self; a_city := c; a_rng := g1 |},
        act pl {| a_self := self; a_city := c; a_rng := g2 |} with
  | Some (_, f1), Some (_, f2) =>
      a_self f1 = a_self f2 /\ a_city f1 = a_city f2 /\ R (a_rng f1) (a_rng f2)
  | None, None => True
  | _, _ => False
  end.
Proof.
  intros Hr. destruct draws as [Hrandom _].
  destruct (Hrandom _ _ Hr) as [Hp Hr'].
  assert (Hbranch :
    match act_branch pl {| a_self := self; a_city := c; a_rng := g1 |},
          act_branch pl {| a_self := self; a_city := c; a_rng := g2 |} with
    | Some (d1, f1), Some (d2, f2) =>
        d1 = d2 /\ a_self f1 = a_self f2 /\ a_city f1 = a_city f2 /\
        R (a_rng f1) (a_rng f2)
    | None, None => True
    | _, _ => False
    end).
  { unfold act_branch. split_branches; run_monad;
      repeat (rewrite ?Hp;
              match goal with
              | |- context [match ?m !! ?k with _ => _ end] =>
                  destruct (m !! k); simpl
              | |- context [if ?b then _ else _] => destruct b; simpl
              end);
      auto. }
  rewrite !act_unfold.
  destruct (act_branch pl {| a_self := self; a_city := c; a_rng := g1 |})
    as [[d1 f1]|],
    (act_branch pl {| a_self := self; a_city := c; a_rng := g2 |})
    as [[d2 f2]|]; simpl; try tauto.
  destruct Hbranch as (-> & Hs & Hc & Hr2). rewrite Hs, Hc. auto.
Qed.

Lemma agree_call_plan (i : nat) (ctx : DayContext) e1 e2 :
  same_world R e1 e2 -> agree R (call_plan i ctx e1) (call_plan i ctx e2).
Proof.
  intros (Hr & Hc & Ha). unfold call_plan, bind, agent_at. rewrite Ha.
  destruct (agents e2 !! i) as [a|]; simpl; [|exact I]. rewrite Hc.
  destruct (plan_related a (city e2) ctx _ _ Hr)
    as (pl & g1' & g2' & -> & -> & Hr').
  simpl. split; [reflexivity|].
  repeat split; simpl; first [assumption | congruence].
Qed.

Lemma agree_call_act (i : nat) (pl : PlannedAction) e1 e2 :
  same_world R e1 e2 -> agree R (call_act i pl e1) (call_act i pl e2).
Proof.
  intros (Hr & Hc & Ha). unfold call_act, bind, agent_at. rewrite Ha.
  destruct (agents e2 !! i) as [a|]; simpl; [|exact I]. rewrite Hc.
  pose proof (act_related pl a (city e2) _ _ Hr) as Hact.
  destruct (act pl {| a_self := a; a_city := city e2; a_rng := rng e1 |})
    as [[[] f1]|],
    (act pl {| a_self := a; a_city := city e2; a_rng := rng e2 |})
    as [[[] f2]|]; simpl; try tauto.
  destruct Hact as (Hs & Hc' & Hr'). split; [reflexivity|].
  repeat split; simpl; congruence.
Qed.

Lemma agree_planning_loop (idxs : list nat) :
  forall (ctx : DayContext) (plans : gmap Z PlannedAction) e1 e2,
  same_world R e1 e2 ->
  agree R (planning_loop idxs ctx plans e1) (planning_loop idxs ctx plans e2).
Proof.
  induction idxs as [|i rest IH]; intros ctx plans e1 e2 Hw.
  - apply agree_ret. exact Hw.
  - simpl. apply agree_bind; [apply agree_call_plan; exact Hw|].
    intros r ea1 ea2 Hwa.
    apply agree_bind; [apply agree_agent_at; exact Hwa|].
    intros agent eb1 eb2 Hwb. apply IH. exact Hwb.
Qed.

Lemma agree_actions_loop (idxs : list nat) :
  forall (plans : gmap Z PlannedAction) e1 e2,
  same_world R e1 e2 ->
  agree R (actions_loop idxs plans e1) (actions_loop idxs plans e2).
Proof.
  induction idxs as [|i rest IH]; intros plans e1 e2 Hw.
  - apply agree_ret. exact Hw.
  - simpl. apply agree_bind; [apply agree_agent_at; exact Hw|].
    intros agent ea1 ea2 Hwa.
    destruct (plans !! id agent) as [pl|]; [|apply IH; exact Hwa].
    apply agree_bind; [apply agree_call_act; exact Hwa|].
    intros [] eb1 eb2 Hwb.
    apply agree_bind; [apply agree_last_entry; exact Hwb|].
    intros entry ec1 ec2 Hwc. apply IH. exact Hwc.
Qed.

Lemma agree_citizen_planning (ctx : DayContext) e1 e2 :
  same_world R e1 e2 ->
  agree R (_citizen_planning ctx e1) (_citizen_planning ctx e2).
Proof.
  intros Hw. unfold _citizen_planning. unfold bind, gets.
  destruct Hw as (Hr & Hc & Ha). rewrite Ha.
  apply agree_planning_loop. repeat split; assumption.
Qed.

Lemma agree_citizen_actions (plans : gmap Z PlannedAction) (ctx : DayContext)
    e1 e2 :
  same_world R e1 e2 ->
  agree R (_citizen_actions plans ctx e1) (_citizen_actions plans ctx e2).
Proof.
  intros Hw. unfold _citizen_actions. unfold bind, gets.
  destruct Hw as (Hr & Hc & Ha). rewrite Ha.
  apply agree_actions_loop. repeat split; assumption.
Qed.

Lemma agree_day_context e1 e2 :
  same_world R e1 e2 -> agree R (_day_context e1) (_day_context e2).
Proof.
  intros Hw. unfold _day_context, _random_weather.
  apply agree_bind; [apply agree_choice; exact Hw|].
  intros w ea1 ea2 Hwa.
  apply agree_bind; [apply agree_random; exact Hwa|].
  intros p eb1 eb2 Hwb. cbv zeta.
  apply agree_bind; [apply agree_city; exact Hwb|].
  intros c ec1 ec2 Hwc. apply agree_ret. exact Hwc.
Qed.

Lemma agree_city_update e1 e2 :
  same_world R e1 e2 -> agree R (_city_update e1) (_city_update e2).
Proof.
  intros Hw. unfold _city_update.
  repeat (apply agree_bind;
          [first [apply agree_stat | apply agree_upd_city]; assumption
          |clear Hw; intros ? ? ? Hw]).
  apply agree_upd_city. exact Hw.
Qed.

Lemma agree_day_cycle e1 e2 :
  same_world R e1 e2 -> agree R (day_cycle e1) (day_cycle e2).
Proof.
  intros Hw. unfold day_cycle.
  apply agree_bind; [apply agree_upd_city; exact Hw|].
  intros [] ea1 ea2 Hwa.
  apply agree_bind; [apply agree_day_context; exact Hwa|].
  intros ctx eb1 eb2 Hwb.
  apply agree_bind; [apply agree_citizen_planning; exact Hwb|].
  intros r ec1 ec2 Hwc.
  apply agree_bind; [apply agree_citizen_actions; exact Hwc|].
  intros [] ed1 ed2 Hwd.
  apply agree_bind; [apply agree_city_update; exact Hwd|].
  intros [] ee1 ee2 Hwe.
  apply agree_bind.
  { unfold _reporting. apply agree_bind; [apply agree_city; exact Hwe|].
    intros c ef1 ef2 Hwf. apply agree_ret. exact Hwf. }
  intros sample eg1 eg2 Hwg.
  apply agree_bind; [apply agree_upd_city; exact Hwg|].
  intros [] eh1 eh2 Hwh. apply agree_ret. exact Hwh.
Qed.

Lemma agree_run_loop (n : nat) :
  forall e1 e2, same_world R e1 e2 -> agree R (run_loop n e1) (run_loop n e2).
Proof.
  induction n as [|n IH]; intros e1 e2 Hw.
  - apply agree_ret. exact Hw.
  - simpl. apply agree_bind; [apply agree_day_cycle; exact Hw|].
    intros plans ea1 ea2 Hwa.
    apply agree_bind; [apply IH; exact Hwa|].
    intros later eb1 eb2 Hwb. apply agree_ret. exact Hwb.
Qed.

End TwoRuns.


(** ** More on the clamp *)

Section ClampFacts.

Lemma SFcompare_refl x : x <> S754_nan -> SFcompare x x = Some Eq.
Proof.
  destruct x as [[]|[]| |[] m e]; simpl; intros Hx; try reflexivity;
    try contradiction.
  - rewrite Z.compare_refl, Pos.compare_cont_refl. reflexivity.
  - rewrite Z.compare_refl, Pos.compare_cont_refl. reflexivity.
Qed.

Lemma feqb_of_le_not_lt x y :
  (x <=? y)%float = true -> (x <? y)%float = false -> (x =? y)%float = true.
Proof.
  rewrite leb_spec, ltb_spec, FloatAxioms.eqb_spec. unfold SFleb, SFltb, SFeqb.
  destruct (SFcompare _ _) as [[]|]; congruence.
Qed.

Lemma feqb_sym x y : (x =? y)%float = (y =? x)%float.
Proof.
  rewrite !FloatAxioms.eqb_spec. unfold SFeqb.
  rewrite (SFcompare_antisym (Prim2SF y) (Prim2SF x)).
  destruct (SFcompare _ _) as [[]|]; reflexivity.
Qed.

Lemma flt_eqb_refl x y : (x <? y)%float = true -> (x =? x)%float = true.
Proof.
  rewrite ltb_spec, FloatAxioms.eqb_spec. unfold SFltb, SFeqb. intros Hlt.
  rewrite SFcompare_refl; [reflexivity|].
  intros Hnan. rewrite Hnan in Hlt. simpl in Hlt. discriminate.
Qed.

Lemma nan_not_lt x y : is_nan x = true -> (x <? y)%float = false.
Proof.
  unfold is_nan. rewrite ltb_spec, FloatAxioms.eqb_spec. unfold SFltb, SFeqb. intros Hnan.
  destruct (Prim2SF x) eqn:Hx; try reflexivity;
    rewrite SFcompare_refl in Hnan by discriminate; discriminate.
Qed.

Lemma clamp01_cases x :
  ((x <? 1)%float = false /\ clamp01 x = 1%float) \/
  ((x <? 1)%float = true /\ (0 <? x)%float = false /\ clamp01 x = 0%float) \/
  ((x <? 1)%float = true /\ (0 <? x)%float = true /\ clamp01 x = x).
Proof.
  unfold clamp01, py_max, py_min.
  destruct (x <? 1)%float eqn:Hx1; [|left; split; reflexivity].
  destruct (0 <? x)%float eqn:H0x; right; [right|left]; repeat split; reflexivity.
Qed.

(** X1: the clamp [max(0.0, min(1.0, x))] is idempotent; on a value that
    already lies in [0.0, 1.0] it returns a float that compares equal to it
    (only the sign of a zero can change); and it turns NaN into 1.0. *)
Theorem clamp01_fixes_unit_interval :
  (forall x, clamp01 (clamp01 x) = clamp01 x) /\
  (forall x, in_unit x -> (clamp01 x =? x)%float = true) /\
  (forall x, is_nan x = true -> clamp01 x = 1%float).
Proof.
  split; [|split].
  - intros x.
    destruct (clamp01_cases x) as [[_ E]|[(_ & _ & E)|(_ & _ & E)]];
      rewrite E; (reflexivity || exact E).
  - intros x [Hlo Hhi].
    destruct (clamp01_cases x) as [[Hx1 E]|[(_ & H0x & E)|(Hx1 & _ & E)]];
      rewrite E.
    + rewrite feqb_sym. exact (feqb_of_le_not_lt _ _ Hhi Hx1).
    + exact (feqb_of_le_not_lt _ _ Hlo H0x).
    + exact (flt_eqb_refl _ _ Hx1).
  - intros x Hnan.
    destruct (clamp01_cases x) as [[_ E]|[(Hx1 & _)|(Hx1 & _)]];
      [exact E| |]; rewrite (nan_not_lt x 1 Hnan) in Hx1; discriminate.
Qed.

End ClampFacts.

(** ** More on Agent.act *)

Section ActExtras.

Context {G : Type} `{RandomSource G}.

Lemma act_none_iff (pl : PlannedAction) (fr : ActFrame G) :
  act pl fr = None <-> act_branch pl fr = None.
Proof.
  rewrite act_unfold. destruct (act_branch pl fr) as [[desc fr1]|]; simpl.
  - split; discriminate.
  - split; reflexivity.
Qed.

(** Economy moves only when working or shopping, money only when working,
    shopping or committing a crime. *)
Lemma act_branch_quiet (pl : PlannedAction) (fr fr1 : ActFrame G) desc :
  act_branch pl fr = Some (desc, fr1) ->
  (action_type pl <> "work" -> action_type pl <> "shop" ->
     economy (a_city fr1) = economy (a_city fr)) /\
  (action_type pl <> "work" -> action_type pl <> "shop" ->
   action_type pl <> "crime" ->
     money (a_self fr1) = money (a_self fr)).
Proof.
  unfold act_branch; split_branches; intros Hb;
    repeat match goal with
    | E : String.eqb _ _ = true |- _ => apply String.eqb_eq in E
    end;
    (split; [intros Hw Hs | intros Hw Hs Hc]);
    try contradiction;
    run_monad; split_lookups; inversion Hb; subst; reflexivity.
Qed.

(** X2: when [act] raises. For [work], [rest], [patrol] and [socialize] it
    raises (a [KeyError]) exactly when the counter of that action is missing
    from [daily_stats]; for [shop] exactly when the agent can pay and
    [shop_count] is missing; for [crime] exactly when [crime_attempts] is
    missing, or the attempt fails and [crime_prevented] is missing; for any
    other action type it never raises. *)
Theorem act_raises_iff_counter_missing (pl : PlannedAction) (fr : ActFrame G) :
  (forall ty key,
     (ty, key) ∈ [("work", "work_count"); ("rest", "rest_count");
                  ("patrol", "patrol_count");
                  ("socialize", "social_interactions")] ->
     action_type pl = ty ->
     (act pl fr = None <-> daily_stats (a_city fr) !! key = None)) /\
  (action_type pl = "shop" ->
     (act pl fr = None <->
      (5 <=? money (a_self fr))%float = true /\
      daily_stats (a_city fr) !! "shop_count" = None)) /\
  (action_type pl = "crime" ->
     (act pl fr = None <->
      daily_stats (a_city fr) !! "crime_attempts" = None \/
      ((fst (random (a_rng fr)) <? 0.3 + (0.5 - safety (a_city fr)))%float = false /\
       daily_stats (a_city fr) !! "crime_prevented" = None))) /\
  (action_type pl ∉ ["work"; "shop"; "rest"; "patrol"; "crime"; "socialize"] ->
     is_Some (act pl fr)).
Proof.
  split; [|split; [|split]].
  - intros ty key Hin Hty. rewrite act_none_iff. unfold act_branch.
    repeat (apply elem_of_cons in Hin as [Hin|Hin];
            [injection Hin as Ety Ekey; rewrite Ety in Hty; rewrite Ekey, Hty;
             simpl; run_monad;
             destruct (daily_stats (a_city fr) !! _); simpl;
             split; (discriminate || reflexivity)|]).
    inversion Hin.
  - intros Hty. rewrite act_none_iff. unfold act_branch. rewrite Hty. simpl.
    run_monad. destruct (5 <=? money (a_self fr))%float; simpl.
    + destruct (daily_stats (a_city fr) !! "shop_count"); simpl.
      * split; [discriminate|]. intros [_ ?]. discriminate.
      * split; auto.
    + split; [discriminate|]. intros [? _]. discriminate.
  - intros Hty. rewrite act_none_iff. unfold act_branch. rewrite Hty. simpl.
    run_monad.
    destruct (daily_stats (a_city fr) !! "crime_attempts") eqn:Ha; simpl.
    + destruct (_ <? _)%float; simpl.
      * split; [discriminate|]. intros [?|[? _]]; discriminate.
      * rewrite lookup_insert_ne by discriminate.
        destruct (daily_stats (a_city fr) !! "crime_prevented"); simpl.
        -- split; [discriminate|]. intros [?|[_ ?]]; discriminate.
        -- split; auto.
    + split; auto.
  - intros Hty. rewrite act_unfold. unfold act_branch.
    repeat match goal with
    | |- context [String.eqb ?a ?b] =>
        destruct (String.eqb a b) eqn:E;
        [apply String.eqb_eq in E; exfalso; apply Hty; rewrite E;
         repeat constructor|clear E]
    end.
    run_monad. eauto.
Qed.

(** X3: an action type outside the six known ones changes nothing but the
    clamp: money is kept, energy and mood are clamped, the city is as before
    but for one log entry, which reads "did nothing in particular.", and no
    draw is made. *)
Theorem act_unknown_type (pl : PlannedAction) (fr : ActFrame G) :
  action_type pl ∉ ["work"; "shop"; "rest"; "patrol"; "crime"; "socialize"] ->
  act pl fr =
    Some (tt,
      {| a_self := set_mood (clamp01 (mood (a_self fr)))
                     (set_energy (clamp01 (energy (a_self fr))) (a_self fr));
         a_city := log_action
                     {| entry_day := day (a_city fr);
                        agent_id := id (a_self fr);
                        agent_name := name (a_self fr);
                        entry_role := role (a_self fr);
                        description := "did nothing in particular." |}
                     (a_city fr);
         a_rng := a_rng fr |}).
Proof.
  intros Hty. rewrite act_unfold. unfold act_branch.
  repeat match goal with
  | |- context [String.eqb ?a ?b] =>
      destruct (String.eqb a b) eqn:E;
      [apply String.eqb_eq in E; exfalso; apply Hty; rewrite E;
       repeat constructor|clear E]
  end.
  run_monad. reflexivity.
Qed.

(** X4: what [act] never touches. The agent's id, name and role, the city's
    day and happiness are kept by every action; safety and the random source
    are touched by [crime] only; economy by [work] and [shop] only; money by
    [work], [shop] and [crime] only. *)
Theorem act_leaves_alone (pl : PlannedAction) (fr fr' : ActFrame G) :
  act pl fr = Some (tt, fr') ->
  (id (a_self fr') = id (a_self fr) /\
   name (a_self fr') = name (a_self fr) /\
   role (a_self fr') = role (a_self fr) /\
   day (a_city fr') = day (a_city fr) /\
   happiness (a_city fr') = happiness (a_city fr)) /\
  (action_type pl <> "crime" ->
     safety (a_city fr') = safety (a_city fr) /\ a_rng fr' = a_rng fr) /\
  (action_type pl <> "work" -> action_type pl <> "shop" ->
     economy (a_city fr') = economy (a_city fr)) /\
  (action_type pl <> "work" -> action_type pl <> "shop" ->
   action_type pl <> "crime" ->
     money (a_self fr') = money (a_self fr)).
Proof.
  rewrite act_unfold.
  destruct (act_branch pl fr) as [[desc fr1]|] eqn:Hb; [|discriminate].
  destruct (act_branch_frame _ _ _ _ Hb)
    as (Hid & Hname & Hrole & Hday & _ & Hhappy & _).
  destruct (act_branch_quiet _ _ _ _ Hb) as (Heco & Hmoney).
  intros Hact. inversion Hact; subst; clear Hact. simpl.
  split; [auto|]. split; [|auto].
  intros Hty. destruct (act_branch_no_crime _ _ _ _ Hty Hb) as (Hs & _ & _ & Hr).
  auto.
Qed.

(** X5: the description of the entry [act] logs is never empty. *)
Theorem act_description_nonempty (pl : PlannedAction) (fr fr' : ActFrame G) :
  act pl fr = Some (tt, fr') ->
  exists entry,
    last (logs (a_city fr')) = Some entry /\ description entry <> "".
Proof.
  rewrite act_unfold.
  destruct (act_branch pl fr) as [[desc fr1]|] eqn:Hb; [|discriminate].
  intros Hact. inversion Hact; subst; clear Hact. simpl.
  eexists. split; [apply last_snoc|]. simpl.
  destruct (String.eqb desc "") eqn:E; [discriminate|].
  apply String.eqb_neq in E. exact E.
Qed.

End ActExtras.

Section ActEffects.

Context {G : Type} `{RandomSource G}.

(** X6: the two actions that move money and economy. [work] pays 10 and
    adds 1.5 to the economy at once; [shop], when the agent has at least 5,
    costs 5 and adds 1.0 to the economy; either adds 1 to its counter and
    leaves the other counters alone. Energy and mood are clamped after the
    change. *)
Theorem act_work_and_shop (pl : PlannedAction) (fr : ActFrame G) (v : float) :
  (action_type pl = "work" ->
   daily_stats (a_city fr) !! "work_count" = Some v ->
   exists fr',
     act pl fr = Some (tt, fr') /\
     money (a_self fr') = (money (a_self fr) + 10)%float /\
     energy (a_self fr') = clamp01 (energy (a_self fr) - 0.2)%float /\
     mood (a_self fr') = clamp01 (mood (a_self fr) + 0.05)%float /\
     economy (a_city fr') = (economy (a_city fr) + 1.5)%float /\
     daily_stats (a_city fr')
       = <["work_count" := (v + 1)%float]> (daily_stats (a_city fr))) /\
  (action_type pl = "shop" ->
   (5 <=? money (a_self fr))%float = true ->
   daily_stats (a_city fr) !! "shop_count" = Some v ->
   exists fr',
     act pl fr = Some (tt, fr') /\
     money (a_self fr') = (money (a_self fr) - 5)%float /\
     energy (a_self fr') = clamp01 (energy (a_self fr) - 0.1)%float /\
     mood (a_self fr') = clamp01 (mood (a_self fr) + 0.1)%float /\
     economy (a_city fr') = (economy (a_city fr) + 1)%float /\
     daily_stats (a_city fr')
       = <["shop_count" := (v + 1)%float]> (daily_stats (a_city fr))).
Proof.
  split.
  - intros Hty Hv. rewrite act_unfold. unfold act_branch. rewrite Hty. simpl.
    run_monad. rewrite Hv. simpl.
    eexists. split; [reflexivity|]. simpl. repeat split; reflexivity.
  - intros Hty Hpay Hv. rewrite act_unfold. unfold act_branch. rewrite Hty.
    simpl. run_monad. rewrite Hpay. simpl. rewrite Hv. simpl.
    eexists. split; [reflexivity|]. simpl. repeat split; reflexivity.
Qed.

(** X7: the three actions that leave money, economy and safety alone.
    [rest] raises energy by 0.4, capped at 1, and mood by 0.05; [patrol]
    costs 0.2 energy and leaves the mood (clamped); [socialize] costs 0.1
    energy and raises mood by 0.1; each adds 1 to its own counter only. *)
Theorem act_rest_patrol_socialize (pl : PlannedAction) (fr : ActFrame G)
    (v : float) :
  (action_type pl = "rest" ->
   daily_stats (a_city fr) !! "rest_count" = Some v ->
   exists fr',
     act pl fr = Some (tt, fr') /\
     energy (a_self fr') = clamp01 (py_min 1 (energy (a_self fr) + 0.4)%float) /\
     mood (a_self fr') = clamp01 (mood (a_self fr) + 0.05)%float /\
     daily_stats (a_city fr')
       = <["rest_count" := (v + 1)%float]> (daily_stats (a_city fr))) /\
  (action_type pl = "patrol" ->
   daily_stats (a_city fr) !! "patrol_count" = Some v ->
   exists fr',
     act pl fr = Some (tt, fr') /\
     energy (a_self fr') = clamp01 (energy (a_self fr) - 0.2)%float /\
     mood (a_self fr') = clamp01 (mood (a_self fr)) /\
     daily_stats (a_city fr')
       = <["patrol_count" := (v + 1)%float]> (daily_stats (a_city fr))) /\
  (action_type pl = "socialize" ->
   daily_stats (a_city fr) !! "social_interactions" = Some v ->
   exists fr',
     act pl fr = Some (tt, fr') /\
     energy (a_self fr') = clamp01 (energy (a_self fr) - 0.1)%float /\
     mood (a_self fr') = clamp01 (mood (a_self fr) + 0.1)%float /\
     daily_stats (a_city fr')
       = <["social_interactions" := (v + 1)%float]> (daily_stats (a_city fr))).
Proof.
  split; [|split]; intros Hty Hv; rewrite act_unfold; unfold act_branch;
    rewrite Hty; simpl; run_monad; rewrite Hv; simpl;
    (eexists; split; [reflexivity|]; simpl; repeat split; reflexivity).
Qed.

End ActEffects.

(** ** More on Agent.plan *)

Section PlanExtras.

Context {G : Type} `{RandomSource G}.

(** X8: what [plan] reads. The plan depends only on the agent's energy and
    role, on the city's economy and safety and on the next draw: two calls
    that agree on these return the same plan, whatever the day context
    (weather, events), the agent's money and mood, and the rest of the city
    are. *)
Theorem plan_reads_only (fr1 fr2 : PlanFrame G) :
  energy (p_self fr1) = energy (p_self fr2) ->
  role (p_self fr1) = role (p_self fr2) ->
  economy (p_city fr1) = economy (p_city fr2) ->
  safety (p_city fr1) = safety (p_city fr2) ->
  fst (random (p_rng fr1)) = fst (random (p_rng fr2)) ->
  fst <$> plan fr1 = fst <$> plan fr2.
Proof.
  intros He Hr Hec Hs Hp. unfold plan. run_monad.
  rewrite He, Hr, Hec, Hs.
  destruct (energy (p_self fr2) <? 0.3)%float; [reflexivity|].
  split_branches; simpl; rewrite Hp;
    repeat match goal with
    | |- context [if ?b then _ else _] => destruct b; simpl
    end; reflexivity.
Qed.

(** X9: the tables of the roles other than [shop_owner], for an agent that
    is not tired. A worker works at the office if [p < 0.7], socializes at
    the cafe if [p < 0.85], else rests; a student studies if [p < 0.5],
    socializes at the park if [p < 0.8], else rests; a police agent patrols
    if [p < 0.6 + (0.5 - safety)], a bound that is not clamped, socializes at
    the station if [p < 0.9], else rests; any other role string, known or
    not, gets the default table: work if [p < 0.4], socialize at the square
    if [p < 0.7], else rest. One draw is made. *)
Theorem plan_role_tables (fr : PlanFrame G) :
  (energy (p_self fr) <? 0.3)%float = false ->
  let p := fst (random (p_rng fr)) in
  let drawn := {| p_self := p_self fr; p_city := p_city fr; p_ctx := p_ctx fr;
                  p_rng := snd (random (p_rng fr)) |} in
  (role (p_self fr) = "worker" ->
   plan fr =
     Some (if (p <? 0.7)%float then mk_plan "work" (Some "office") ""
           else if (p <? 0.85)%float then mk_plan "socialize" (Some "cafe") ""
           else mk_plan "rest" None "", drawn)) /\
  (role (p_self fr) = "student" ->
   plan fr =
     Some (if (p <? 0.5)%float then mk_plan "work" (Some "school") "Studying."
           else if (p <? 0.8)%float then mk_plan "socialize" (Some "park") ""
           else mk_plan "rest" None "", drawn)) /\
  (role (p_self fr) = "police" ->
   plan fr =
     Some (if (p <? 0.6 + (0.5 - safety (p_city fr)))%float
           then mk_plan "patrol" (Some "streets") ""
           else if (p <? 0.9)%float then mk_plan "socialize" (Some "station") ""
           else mk_plan "rest" None "", drawn)) /\
  (role (p_self fr) ∉ ["worker"; "shop_owner"; "student"; "police"] ->
   plan fr =
     Some (if (p <? 0.4)%float then mk_plan "work" (Some "generic_job") ""
           else if (p <? 0.7)%float then mk_plan "socialize" (Some "square") ""
           else mk_plan "rest" None "", drawn)).
Proof.
  intros Hfit p drawn.
  split; [|split; [|split]]; intros Hrole; unfold plan; run_monad;
    rewrite Hfit.
  1-3: rewrite Hrole; simpl; fold p; fold drawn;
    repeat match goal with
    | |- context [if ?b then _ else _] => destruct b; simpl
    end; reflexivity.
  repeat match goal with
  | |- context [String.eqb ?a ?b] =>
      destruct (String.eqb a b) eqn:E;
      [apply String.eqb_eq in E; exfalso; apply Hrole; rewrite E;
       repeat constructor|clear E]
  end.
  fold p. fold drawn.
  repeat match goal with
  | |- context [if ?b then _ else _] => destruct b; simpl
  end; reflexivity.
Qed.

End PlanExtras.

(** ** More on the engine *)

Section EngineExtras.

Context {G : Type} `{RandomSource G}.

(** The weather draw: a member of the four, only the random source moves. *)
Lemma weather_choice_result (e : Engine G) :
  exists w g,
    engine_choice ["sunny"; "cloudy"; "rainy"; "windy"] e
      = Some (w, {| rng := g; city := city e; agents := agents e |}) /\
    w ∈ ["sunny"; "cloudy"; "rainy"; "windy"].
Proof.
  unfold engine_choice.
  pose proof (randbelow_lt 4 (rng e) ltac:(lia)) as Hlt.
  destruct (lookup_lt_is_Some_2 ["sunny"; "cloudy"; "rainy"; "windy"]
              (fst (randbelow 4 (rng e))) Hlt) as [w Hw].
  simpl length. rewrite Hw. eexists _, _. split; [reflexivity|].
  apply list_elem_of_lookup. eauto.
Qed.

(** X10: [rng.choice(seq)] in the engine returns a member of the sequence
    and touches only the random source; it raises (an [IndexError]) exactly
    when the sequence is empty. *)
Theorem choice_member (seq : list string) (e : Engine G) :
  (seq <> [] ->
   exists x g,
     engine_choice seq e
       = Some (x, {| rng := g; city := city e; agents := agents e |}) /\
     x ∈ seq) /\
  (engine_choice seq e = None <-> seq = []).
Proof.
  unfold engine_choice.
  destruct seq as [|s0 rest].
  - split; [congruence|]. simpl. split; reflexivity.
  - assert (Hlt : (fst (randbelow (length (s0 :: rest)) (rng e))
                   < length (s0 :: rest))%nat).
    { apply randbelow_lt. simpl. lia. }
    destruct (lookup_lt_is_Some_2 _ _ Hlt) as [x Hx]. rewrite Hx.
    split.
    + intros _. eexists _, _. split; [reflexivity|].
      apply list_elem_of_lookup. eauto.
    + split; discriminate.
Qed.

(** X11: building the day context never raises; the weather is one of the
    four, there is no event or exactly one of the three, the context carries
    the city's day, and the city and the roster are not touched. *)
Theorem day_context_shape (e : Engine G) :
  exists ctx g,
    _day_context e = Some (ctx, {| rng := g; city := city e; agents := agents e |}) /\
    weather ctx ∈ ["sunny"; "cloudy"; "rainy"; "windy"] /\
    (events ctx = [] \/
     exists ev, events ctx = [ev] /\
       ev ∈ ["city_festival"; "minor_economic_downturn"; "crime_wave"]) /\
    ctx_day ctx = day (city e).
Proof.
  unfold _day_context, _random_weather.
  destruct (weather_choice_result e) as (w & g & Hw & Hin).
  unfold bind at 1. rewrite Hw. run_monad.
  eexists _, _. split; [reflexivity|]. simpl. split; [exact Hin|].
  split; [|reflexivity].
  repeat match goal with
  | |- context [if ?b then _ else _] => destruct b
  end; [right|right|right|left; reflexivity];
    (eexists; split; [reflexivity|]; repeat constructor).
Qed.

End EngineExtras.

Section LoopExtras.

Context {G : Type} `{RandomSource G}.

(** X12: agents without a plan are skipped. When no agent of the roster has
    a plan under its id, the CITIZEN_ACTIONS phase leaves the whole engine
    as it was: nothing is logged, no counter is read (so nothing raises even
    on a city whose counters were never reset), no draw is made. *)
Theorem actions_skip_unplanned (plans : gmap Z PlannedAction) (ctx : DayContext)
    (e : Engine G) :
  (forall a, a ∈ agents e -> plans !! id a = None) ->
  _citizen_actions plans ctx e = Some (tt, e).
Proof.
  intros Hnone. unfold _citizen_actions. unfold bind at 1, gets at 1.
  assert (Hloop : forall idxs,
            Forall (fun i => is_Some (agents e !! i)) idxs ->
            actions_loop idxs plans e = Some (tt, e)).
  { induction idxs as [|i rest IH]; intros Hidx; [reflexivity|].
    inversion Hidx as [|? ? [a Ha] Hrest]; subst.
    simpl. unfold bind at 1. unfold agent_at at 1. rewrite Ha.
    rewrite (Hnone a) by (apply list_elem_of_lookup; eauto).
    exact (IH Hrest). }
  apply Hloop. apply Forall_forall. intros i Hi. apply elem_of_seq in Hi.
  apply lookup_lt_is_Some_2. lia.
Qed.

Lemma zero_stats_keys (k : string) :
  is_Some (zero_stats !! k) <-> k ∈ stat_keys.
Proof.
  unfold zero_stats, stat_keys.
  rewrite !lookup_insert_is_Some', lookup_empty, !elem_of_cons, elem_of_nil.
  split.
  - intros [?|[?|[?|[?|[?|[?|[?|[? ?]]]]]]]]; try discriminate; subst; tauto.
  - intros [?|[?|[?|[?|[?|[?|[?|[]]]]]]]]; subst; tauto.
Qed.

Lemma zero_stats_values (k : string) (v : float) :
  zero_stats !! k = Some v -> v = 0%float.
Proof.
  unfold zero_stats.
  repeat (rewrite lookup_insert; case_decide; [congruence|]).
  rewrite lookup_empty. discriminate.
Qed.

(** X13: DAY_START. Whatever the dict held before, after [_day_start] it
    holds exactly the seven counters, each at 0.0; the rest of the city, the
    roster and the random source are not touched; starting the day twice is
    the same as starting it once. *)
Theorem day_start_resets (e : Engine G) :
  exists e',
    _day_start e = Some (tt, e') /\
    (forall k, is_Some (daily_stats (city e') !! k) <-> k ∈ stat_keys) /\
    (forall k v, daily_stats (city e') !! k = Some v -> v = 0%float) /\
    day (city e') = day (city e) /\
    economy (city e') = economy (city e) /\
    safety (city e') = safety (city e) /\
    happiness (city e') = happiness (city e) /\
    logs (city e') = logs (city e) /\
    rng e' = rng e /\ agents e' = agents e /\
    _day_start e' = Some (tt, e').
Proof.
  unfold _day_start, upd_engine_city, modify. eexists. split; [reflexivity|].
  simpl. split; [exact zero_stats_keys|]. split; [exact zero_stats_values|].
  repeat split; reflexivity.
Qed.

(** [act] keeps the agent's name and role. *)
Lemma act_names (pl : PlannedAction) (fr fr' : ActFrame G) :
  act pl fr = Some (tt, fr') ->
  name (a_self fr') = name (a_self fr) /\ role (a_self fr') = role (a_self fr).
Proof.
  rewrite act_unfold.
  destruct (act_branch pl fr) as [[desc fr1]|] eqn:Hb; [|discriminate].
  destruct (act_branch_frame _ _ _ _ Hb) as (_ & Hname & Hrole & _).
  intros Hact. inversion Hact; subst; clear Hact. simpl. auto.
Qed.

(** One call of [act] from the loop, read backwards. *)
Lemma call_act_inv (i : nat) (pl : PlannedAction) (e e1 : Engine G) :
  call_act i pl e = Some (tt, e1) ->
  exists a a1,
    agents e !! i = Some a /\
    agents e1 = <[i := a1]> (agents e) /\
    id a1 = id a /\ name a1 = name a /\ role a1 = role a /\
    in_unit (energy a1) /\ in_unit (mood a1) /\
    dom (daily_stats (city e1)) = dom (daily_stats (city e)).
Proof.
  unfold call_act. unfold bind, agent_at.
  destruct (agents e !! i) as [a|] eqn:Ha; [|discriminate].
  destruct (act pl _) as [[[] fr']|] eqn:Hact; [|discriminate].
  intros Hcall. inversion Hcall; subst; clear Hcall. simpl.
  destruct (act_clamps _ _ _ Hact) as [He Hm].
  destruct (act_frame _ _ _ Hact) as (Hid & _ & Hdom).
  destruct (act_names _ _ _ Hact) as (Hname & Hrole).
  exists a, (a_self fr'). simpl in *.
  split; [reflexivity|]. split; [reflexivity|].
  do 5 (split; [assumption|]). exact Hdom.
Qed.

(** The actions loop, read backwards: the roster keeps its length and every
    agent its id, name and role; an agent is either as it was or has energy
    and mood in the unit interval, the latter for every visited agent that
    had a plan; the set of counters is kept. *)
Lemma actions_loop_agents (idxs : list nat) :
  forall (plans : gmap Z PlannedAction) (e e' : Engine G),
  actions_loop idxs plans e = Some (tt, e') ->
  Forall2 (fun a a' => id a' = id a /\ name a' = name a /\ role a' = role a)
          (agents e) (agents e') /\
  (forall i a', agents e' !! i = Some a' ->
     agents e !! i = Some a' \/
     (in_unit (energy a') /\ in_unit (mood a'))) /\
  (forall i a a', i ∈ idxs -> agents e !! i = Some a ->
     is_Some (plans !! id a) -> agents e' !! i = Some a' ->
     in_unit (energy a') /\ in_unit (mood a')) /\
  dom (daily_stats (city e')) = dom (daily_stats (city e)).
Proof.
  induction idxs as [|i0 rest IH]; intros plans e e' Hloop.
  - simpl in Hloop. inversion Hloop; subst.
    split; [apply Forall2_same_length_lookup_2; [reflexivity|];
            intros ? ? ? E1 E2; rewrite E1 in E2; inversion E2; auto|].
    split; [auto|]. split; [|reflexivity].
    intros i a a' Hi. inversion Hi.
  - simpl in Hloop. unfold bind at 1 in Hloop. unfold agent_at at 1 in Hloop.
    destruct (agents e !! i0) as [a0|] eqn:Ha0; [|discriminate].
    destruct (plans !! id a0) as [pl|] eqn:Hpl.
    + unfold bind at 1 in Hloop.
      destruct (call_act i0 pl e) as [[[] e1]|] eqn:Hcall; [|discriminate].
      unfold bind at 1 in Hloop. unfold last_entry at 1 in Hloop.
      destruct (last (logs (city e1))) as [entry|]; [|discriminate].
      destruct (call_act_inv _ _ _ _ Hcall)
        as (a & a1 & Ha & Hags & Hid & Hname & Hrole & He & Hm & Hdom).
      rewrite Ha0 in Ha. inversion Ha; subst a; clear Ha.
      destruct (IH _ _ _ Hloop) as (Hident & Hsame & Hvisited & Hdom').
      rewrite Hags in Hident, Hsame, Hvisited.
      assert (Hlt : (i0 < length (agents e))%nat)
        by (apply lookup_lt_Some in Ha0; exact Ha0).
      split; [|split; [|split]].
      * apply Forall2_same_length_lookup_2.
        { apply Forall2_length in Hident. rewrite length_insert in Hident.
          exact Hident. }
        intros i a a' Hia Hia'.
        destruct (decide (i = i0)) as [->|Hne].
        -- rewrite Ha0 in Hia. inversion Hia; subst a.
           assert (Hi1 : <[i0:=a1]> (agents e) !! i0 = Some a1)
             by (apply list_lookup_insert_eq; exact Hlt).
           destruct (Forall2_lookup_lr _ _ _ _ _ _ Hident Hi1 Hia')
             as (E1 & E2 & E3).
           repeat split; congruence.
        -- assert (Hi1 : <[i0:=a1]> (agents e) !! i = Some a)
             by (rewrite list_lookup_insert_ne by congruence; exact Hia).
           exact (Forall2_lookup_lr _ _ _ _ _ _ Hident Hi1 Hia').
      * intros i a' Hia'. destruct (Hsame i a' Hia') as [Hold|Hcl]; [|auto].
        destruct (decide (i = i0)) as [->|Hne].
        -- rewrite list_lookup_insert_eq in Hold by exact Hlt.
           inversion Hold; subst a'. auto.
        -- rewrite list_lookup_insert_ne in Hold by congruence. auto.
      * intros i a a' Hi Hia Hplan Hia'.
        destruct (decide (i = i0)) as [->|Hne].
        -- destruct (Hsame i0 a' Hia') as [Hold|Hcl]; [|auto].
           rewrite list_lookup_insert_eq in Hold by exact Hlt.
           inversion Hold; subst a'. auto.
        -- apply elem_of_cons in Hi as [Hi|Hi]; [contradiction|].
           apply (Hvisited i a a' Hi); auto.
           rewrite list_lookup_insert_ne by congruence. exact Hia.
      * congruence.
    + destruct (IH _ _ _ Hloop) as (Hident & Hsame & Hvisited & Hdom').
      split; [exact Hident|]. split; [exact Hsame|]. split; [|exact Hdom'].
      intros i a a' Hi Hia Hplan Hia'.
      apply elem_of_cons in Hi as [->|Hi].
      * rewrite Ha0 in Hia. inversion Hia; subst a.
        rewrite Hpl in Hplan. destruct Hplan as [? Hplan]. discriminate.
      * exact (Hvisited i a a' Hi Hia Hplan Hia').
Qed.

End LoopExtras.

Section DayExtras.

Context {G : Type} `{RandomSource G}.

(** X14: the CITY_UPDATE phase returns exactly when the seven counters are
    present (otherwise a lookup raises [KeyError]); when it returns, the day,
    the counters, the log, the roster and the random source are as before. *)
Theorem city_update_returns_iff (e : Engine G) :
  (is_Some (_city_update e) <-> has_counters (daily_stats (city e))) /\
  (forall e', _city_update e = Some (tt, e') ->
     day (city e') = day (city e) /\
     daily_stats (city e') = daily_stats (city e) /\
     logs (city e') = logs (city e) /\
     agents e' = agents e /\ rng e' = rng e).
Proof.
  split.
  - split; [|apply city_update_total].
    intros [[[] e'] Hup]. unfold _city_update in Hup. run_monad.
    split_lookups. intros k Hk. unfold stat_keys in Hk.
    repeat (apply elem_of_cons in Hk as [->|Hk]; [eauto|]).
    inversion Hk.
  - intros e' Hup.
    destruct (city_update_clamps _ _ Hup) as (_ & _ & ? & ? & ? & ? & ?). auto.
Qed.

(** The planning phase: only the random source moves, and the ids of the
    roster are exactly the keys of the plans. *)
Lemma citizen_planning_result (ctx : DayContext) (e : Engine G) :
  exists plans g,
    _citizen_planning ctx e
      = Some ((plans, ctx), {| rng := g; city := city e; agents := agents e |}) /\
    (forall k, is_Some (plans !! k) <-> k ∈ id <$> agents e).
Proof.
  assert (Hidx : Forall (fun i => is_Some (agents e !! i))
                        (seq 0 (length (agents e)))).
  { apply Forall_forall. intros i Hi. apply elem_of_seq in Hi.
    apply lookup_lt_is_Some_2. lia. }
  destruct (planning_loop_result _ ctx ∅ e Hidx) as (plans & g & Hplan & Hdom & _).
  exists plans, g. split.
  - unfold _citizen_planning. unfold bind at 1, gets at 1. exact Hplan.
  - intros k. rewrite Hdom, lookup_empty. split.
    + intros [[? Hk]|(i & a & _ & Ha & Hid)]; [discriminate|].
      apply list_elem_of_fmap. exists a. split; [auto|].
      apply list_elem_of_lookup. eauto.
    + intros Hk. apply list_elem_of_fmap in Hk as (a & -> & Ha).
      apply list_elem_of_lookup in Ha as [i Ha]. right. exists i, a.
      split; [|auto]. apply elem_of_seq. simpl.
      apply lookup_lt_Some in Ha. lia.
Qed.

(** X15: the CITIZEN_PLANNING phase always completes and changes nothing
    but the random source: the city, the roster and the day context come
    back as they were; the plans dict holds a plan under exactly the ids of
    the roster, one plan per agent when the ids are distinct. *)
Theorem planning_phase_frame (ctx : DayContext) (e : Engine G) :
  exists plans g,
    _citizen_planning ctx e
      = Some ((plans, ctx), {| rng := g; city := city e; agents := agents e |}) /\
    (forall k, is_Some (plans !! k) <-> k ∈ id <$> agents e) /\
    (NoDup (id <$> agents e) -> size plans = length (agents e)).
Proof.
  destruct (citizen_planning_result ctx e) as (plans & g & Hplan & Hcover).
  exists plans, g. split; [exact Hplan|]. split; [exact Hcover|].
  intros Hnodup. rewrite <- size_dom.
  assert (Hdom : dom plans = list_to_set (id <$> agents e)).
  { apply set_eq. intros k.
    rewrite elem_of_dom, Hcover, elem_of_list_to_set. reflexivity. }
  rewrite Hdom, size_list_to_set by exact Hnodup. apply length_fmap.
Qed.

(** The phases of a day that completed. *)
Lemma day_cycle_inv (e e' : Engine G) (plans : gmap Z PlannedAction) :
  day_cycle e = Some (plans, e') ->
  exists ctx e1 ctx' e2 e3 e4,
    _day_context {| rng := rng e; city := reset_daily_stats (city e);
                    agents := agents e |} = Some (ctx, e1) /\
    _citizen_planning ctx e1 = Some ((plans, ctx'), e2) /\
    _citizen_actions plans ctx' e2 = Some (tt, e3) /\
    _city_update e3 = Some (tt, e4) /\
    e' = {| rng := rng e4; city := set_day (day (city e4) + 1)%Z (city e4);
            agents := agents e4 |}.
Proof.
  unfold day_cycle. unfold bind at 1.
  unfold _day_start at 1, upd_engine_city at 1, modify at 1.
  unfold bind at 1.
  destruct (_day_context _) as [[ctx e1]|] eqn:Hctx; [|discriminate].
  unfold bind at 1.
  destruct (_citizen_planning ctx e1) as [[[plans0 ctx'] e2]|] eqn:Hplan;
    [|discriminate].
  simpl fst. simpl snd. unfold bind at 1.
  destruct (_citizen_actions plans0 ctx' e2) as [[[] e3]|] eqn:Hacts;
    [|discriminate].
  unfold bind at 1.
  destruct (_city_update e3) as [[[] e4]|] eqn:Hup; [|discriminate].
  unfold bind, _reporting, _next_day, upd_engine_city, modify, gets, ret.
  intros Hday. inversion Hday; subst; clear Hday.
  exists ctx, e1, ctx', e2, e3, e4. auto.
Qed.

(** What a day leaves behind, besides what [day_cycle_result] tells: the
    agents keep id, name and role, all have energy and mood in the unit
    interval, and the dict holds exactly the seven counters. *)
Lemma day_cycle_agents (e e' : Engine G) (plans : gmap Z PlannedAction) :
  day_cycle e = Some (plans, e') ->
  Forall2 (fun a a' => id a' = id a /\ name a' = name a /\ role a' = role a)
          (agents e) (agents e') /\
  Forall (fun a => in_unit (energy a) /\ in_unit (mood a)) (agents e') /\
  (forall k, is_Some (daily_stats (city e') !! k) <-> k ∈ stat_keys).
Proof.
  intros Hday.
  destruct (day_cycle_inv _ _ _ Hday)
    as (ctx & e1 & ctx' & e2 & e3 & e4 & Hctx & Hplan & Hacts & Hup & ->).
  destruct (day_context_result
              {| rng := rng e; city := reset_daily_stats (city e);
                 agents := agents e |}) as (ctx0 & g1 & Hctx0 & _).
  rewrite Hctx in Hctx0. inversion Hctx0; subst ctx0 e1; clear Hctx0.
  destruct (citizen_planning_result ctx
              {| rng := g1; city := reset_daily_stats (city e);
                 agents := agents e |}) as (plans0 & g2 & Hplan0 & Hcover).
  rewrite Hplan in Hplan0. inversion Hplan0; subst plans0 ctx' e2; clear Hplan0.
  simpl in *.
  unfold _citizen_actions in Hacts. unfold bind at 1, gets at 1 in Hacts.
  simpl in Hacts.
  destruct (actions_loop_agents _ _ _ _ Hacts)
    as (Hident & _ & Hvisited & Hdom).
  destruct (city_update_clamps _ _ Hup) as (_ & _ & _ & Hag4 & _ & _ & Hst4).
  simpl in *. rewrite Hag4, Hst4.
  split; [exact Hident|]. split.
  - apply Forall_lookup. intros i a' Ha'.
    assert (Hlen : length (agents e3) = length (agents e))
      by (symmetry; exact (Forall2_length _ _ _ Hident)).
    assert (Hi : (i < length (agents e))%nat)
      by (rewrite <- Hlen; exact (lookup_lt_Some _ _ _ Ha')).
    destruct (lookup_lt_is_Some_2 _ _ Hi) as [a Ha].
    apply (Hvisited i a a'); [apply elem_of_seq; lia|exact Ha| |exact Ha'].
    apply Hcover. apply list_elem_of_fmap. exists a. split; [auto|].
    apply list_elem_of_lookup. eauto.
  - intros k. rewrite <- zero_stats_keys.
    rewrite <- !elem_of_dom, Hdom. reflexivity.
Qed.

End DayExtras.

Section RunExtras.

Context {G : Type} `{RandomSource G}.

(** Over a run the agents keep id, name and role; after at least one day
    every agent and the city are clamped and the dict holds exactly the seven
    counters. *)
Lemma run_loop_agents (n : nat) :
  forall (e e' : Engine G) days_plans,
  run_loop n e = Some (days_plans, e') ->
  Forall2 (fun a a' => id a' = id a /\ name a' = name a /\ role a' = role a)
          (agents e) (agents e') /\
  ((0 < n)%nat ->
     Forall (fun a => in_unit (energy a) /\ in_unit (mood a)) (agents e') /\
     in_unit (safety (city e')) /\ in_unit (happiness (city e')) /\
     (forall k, is_Some (daily_stats (city e') !! k) <-> k ∈ stat_keys)).
Proof.
  induction n as [|n IH]; intros e e' ps Hrun.
  - simpl in Hrun. inversion Hrun; subst. split; [|lia].
    apply Forall2_same_length_lookup_2; [reflexivity|].
    intros ? ? ? E1 E2. rewrite E1 in E2. inversion E2. auto.
  - simpl in Hrun. unfold bind at 1 in Hrun.
    destruct (day_cycle e) as [[plans e1]|] eqn:Hday; [|discriminate].
    unfold bind at 1 in Hrun.
    destruct (run_loop n e1) as [[later e2]|] eqn:Hlater; [|discriminate].
    inversion Hrun; subst; clear Hrun.
    destruct (day_cycle_agents _ _ _ Hday) as (Hident1 & Hclamp1 & Hkeys1).
    destruct (day_cycle_result e)
      as (plans' & e1' & new & Hday' & _ & _ & _ & _ & _ & _ & _ & _ & Hs & Hh).
    rewrite Hday in Hday'. inversion Hday'; subst plans' e1'; clear Hday'.
    destruct (IH _ _ _ Hlater) as (Hident & Hpos).
    split.
    + eapply Forall2_trans; [|exact Hident1|exact Hident].
      intros a b c (? & ? & ?) (? & ? & ?). repeat split; congruence.
    + intros _. destruct n as [|n'].
      * simpl in Hlater. inversion Hlater; subst. auto.
      * apply Hpos. lia.
Qed.

(** X16: what a run keeps. A run of any number of days completes and every
    agent keeps its id, name and role (the roster keeps its length and
    order). After a run of at least one day every agent's energy and mood
    and the city's safety and happiness lie in [0.0, 1.0], and the counters
    dict holds exactly the seven fixed keys. *)
Theorem run_invariants (days : Z) (e : Engine G) :
  exists days_plans e',
    run days e = Some (days_plans, e') /\
    Forall2 (fun a a' => id a' = id a /\ name a' = name a /\ role a' = role a)
            (agents e) (agents e') /\
    ((0 < days)%Z ->
       Forall (fun a => in_unit (energy a) /\ in_unit (mood a)) (agents e') /\
       in_unit (safety (city e')) /\ in_unit (happiness (city e')) /\
       (forall k, is_Some (daily_stats (city e') !! k) <-> k ∈ stat_keys)).
Proof.
  unfold run.
  destruct (run_loop_result (Z.to_nat days) e) as (ps & e' & _ & Hrun & _).
  destruct (run_loop_agents _ _ _ _ Hrun) as (Hident & Hpos).
  exists ps, e'. split; [exact Hrun|]. split; [exact Hident|].
  intros Hdays. apply Hpos. lia.
Qed.

(** X17: the arithmetic of a run. [run(days)] performs [max(0, days)] day
    cycles: it yields that many plan dicts, advances [city.day] by that many
    and appends that many entries per agent to the log; for [days <= 0] the
    engine is left exactly as it was. *)
Theorem run_day_count (days : Z) (e : Engine G) :
  exists days_plans e',
    run days e = Some (days_plans, e') /\
    length days_plans = Z.to_nat days /\
    day (city e') = (day (city e) + Z.max 0 days)%Z /\
    length (logs (city e'))
      = (length (logs (city e)) + Z.to_nat days * length (agents e))%nat /\
    length (agents e') = length (agents e) /\
    ((days <= 0)%Z -> days_plans = [] /\ e' = e).
Proof.
  unfold run.
  destruct (run_loop_result (Z.to_nat days) e)
    as (ps & e' & new & Hrun & Hlen & _ & Hids & Hday & Hlogs & Hnew & _).
  exists ps, e'. split; [exact Hrun|]. split; [exact Hlen|].
  split; [rewrite Hday; lia|].
  split; [rewrite Hlogs, length_app, Hnew; reflexivity|].
  split.
  { rewrite <- (length_fmap id (agents e')), Hids. apply length_fmap. }
  intros Hle. replace (Z.to_nat days) with 0%nat in Hrun by lia.
  simpl in Hrun. inversion Hrun; subst. auto.
Qed.

(** The stamps of the entries a run appends. *)
Lemma run_loop_stamps (n : nat) :
  forall e : Engine G,
  exists days_plans e' new,
    run_loop n e = Some (days_plans, e') /\
    logs (city e') = (logs (city e) ++ new)%list /\
    forall i entry, new !! i = Some entry ->
      entry_day entry = (day (city e) + Z.of_nat (i / length (agents e)))%Z /\
      (id <$> agents e) !! (i mod length (agents e)) = Some (agent_id entry).
Proof.
  induction n as [|n IH]; intros e.
  - exists [], e, []. simpl. rewrite app_nil_r.
    repeat split; auto; discriminate.
  - destruct (day_cycle_result e)
      as (plans & e1 & new1 & Hday & Hids1 & Hd1 & Hlogs1 & Hnew1 & _).
    destruct (IH e1) as (later & e' & new & Hrun & Hlogs & Hnew).
    assert (Hlen : length (agents e1) = length (agents e)).
    { rewrite <- (length_fmap id (agents e1)), Hids1. apply length_fmap. }
    assert (Hlen1 : length new1 = length (agents e)).
    { apply Forall2_length in Hnew1. rewrite length_seq in Hnew1. auto. }
    exists (plans :: later), e', (new1 ++ new)%list.
    split.
    { simpl. unfold bind at 1. rewrite Hday.
      unfold bind at 1. rewrite Hrun. reflexivity. }
    split; [rewrite Hlogs, Hlogs1, app_assoc; reflexivity|].
    intros i entry Hi.
    destruct (decide (i < length (agents e))%nat) as [Hlt|Hge].
    + rewrite lookup_app_l in Hi by lia.
      destruct (Forall2_lookup_r _ _ _ _ _ Hnew1 Hi) as (j & Hj & Heday & Heid).
      apply lookup_seq in Hj as [-> _]. simpl in Heid.
      rewrite Nat.div_small, Nat.mod_small by exact Hlt.
      split; [rewrite Heday; lia | exact Heid].
    + rewrite lookup_app_r in Hi by lia. rewrite Hlen1 in Hi.
      destruct (Hnew _ _ Hi) as [Heday Heid].
      rewrite Hlen, Hids1, Hd1 in *.
      assert (Hpos : (0 < length (agents e))%nat).
      { pose proof (lookup_lt_Some _ _ _ Heid) as Hbound.
        rewrite length_fmap in Hbound. lia. }
      assert (Ediv : (i / length (agents e)
                      = 1 + (i - length (agents e)) / length (agents e))%nat).
      { rewrite <- Nat.div_add_l by lia. f_equal. lia. }
      assert (Emod : (i mod length (agents e)
                      = (i - length (agents e)) mod length (agents e))%nat).
      { rewrite <- (Nat.Div0.mod_add (i - length (agents e)) 1 (length (agents e))).
        f_equal. lia. }
      rewrite Ediv, Emod.
      split; [rewrite Heday; lia | exact Heid].
Qed.

(** X18: the stamps of a run. Counting from 0 the entries a run appends and
    writing [n] for the size of the roster, entry [i] carries the day
    [city.day + i / n] and the id of the agent at position [i mod n]: the
    log is chronological, each day's block in roster order. *)
Theorem run_log_stamps (days : Z) (e : Engine G) :
  exists days_plans e' new,
    run days e = Some (days_plans, e') /\
    logs (city e') = (logs (city e) ++ new)%list /\
    forall i entry, new !! i = Some entry ->
      entry_day entry = (day (city e) + Z.of_nat (i / length (agents e)))%Z /\
      (id <$> agents e) !! (i mod length (agents e)) = Some (agent_id entry).
Proof. unfold run. apply run_loop_stamps. Qed.

End RunExtras.

Section ReportExtras.

Context {G : Type} `{RandomSource G}.


(** X20: the program of [main.py], seed 42 and five days, on any random
    source: it completes, on day 6, with 30 log entries; entry [i] is stamped
    with day [1 + i / 6] and agent id [1 + i mod 6]; the six agents are still
    Alice to Frank with their roles. *)
Theorem main_outcome :
  exists days_plans (e' : Engine G),
    main = Some (days_plans, e') /\
    length days_plans = 5%nat /\
    day (city e') = 6%Z /\
    length (logs (city e')) = 30%nat /\
    (forall i entry, logs (city e') !! i = Some entry ->
       entry_day entry = (1 + Z.of_nat (i / 6))%Z /\
       agent_id entry = (1 + Z.of_nat (i mod 6))%Z) /\
    (fun a => (id a, name a, role a)) <$> agents e'
      = [(1%Z, "Alice", "worker"); (2%Z, "Bob", "worker");
         (3%Z, "Carla", "shop_owner"); (4%Z, "Daniel", "student");
         (5%Z, "Eva", "police"); (6%Z, "Frank", "citizen")].
Proof.
  unfold main, run. change (Z.to_nat 5) with 5%nat.
  destruct (run_loop_stamps 5 (__init__ 42)) as (ps & e' & new & Hrun & Hlogs & Hst).
  destruct (run_loop_result 5 (__init__ 42))
    as (ps' & e'' & new' & Hrun' & Hlen & _ & _ & Hday & Hlogs' & Hnew & _).
  rewrite Hrun in Hrun'. inversion Hrun'; subst ps' e''; clear Hrun'.
  destruct (run_loop_agents _ _ _ _ Hrun) as (Hident & _).
  change (length (agents (__init__ 42))) with 6%nat in Hst.
  change (id <$> agents (__init__ 42)) with [1; 2; 3; 4; 5; 6]%Z in Hst.
  change (day (city (__init__ 42))) with 1%Z in Hst.
  simpl in Hlogs, Hlogs', Hday, Hnew, Hident.
  exists ps, e'. split; [exact Hrun|]. split; [exact Hlen|].
  split; [rewrite Hday; reflexivity|].
  split; [rewrite Hlogs'; exact Hnew|].
  split.
  - intros i entry Hi. rewrite Hlogs in Hi.
    destruct (Hst i entry Hi) as [Hd Hid]. split; [rewrite Hd; reflexivity|].
    pose proof (Nat.mod_upper_bound i 6 ltac:(lia)) as Hm.
    destruct (i mod 6)%nat as [|[|[|[|[|[|?]]]]]]; simpl in Hid;
      try lia; inversion Hid; reflexivity.
  - unfold _create_default_agents in Hident.
    repeat (let a := fresh "a" in let l := fresh "l" in
            let Ha := fresh "Ha" in let E := fresh "E" in
            apply Forall2_cons_inv_l in Hident
              as (a & l & (? & ? & ?) & Hident & E); rewrite E; clear E).
    apply Forall2_nil_inv_l in Hident. rewrite Hident. simpl in *.
    repeat f_equal; congruence.
Qed.

End ReportExtras.

Section DrawExtras.

Context {G : Type} `{RandomSource G}.

Lemma call_plan_draw (i : nat) (ctx : DayContext) (e : Engine G) (a : Agent) :
  agents e !! i = Some a ->
  exists pl,
    call_plan i ctx e
      = Some ((pl, ctx),
              {| rng := if (energy a <? 0.3)%float then rng e
                        else snd (random (rng e));
                 city := city e; agents := agents e |}).
Proof.
  intros Ha. unfold call_plan. run_monad. rewrite Ha.
  destruct (plan_result {| p_self := a; p_city := city e; p_ctx := ctx;
                           p_rng := rng e |}) as (pl & -> & _).
  simpl. rewrite (list_insert_id _ _ _ Ha). eauto.
Qed.

(** The planning loop over the rest of the roster makes one draw per agent
    that is not tired. *)
Lemma planning_loop_draws (todo : list Agent) :
  forall (done : list Agent) (ctx : DayContext) (plans : gmap Z PlannedAction)
         (g : G) (c : CityState),
  exists plans',
    planning_loop (seq (length done) (length todo)) ctx plans
      {| rng := g; city := c; agents := (done ++ todo)%list |}
    = Some ((plans', ctx),
            {| rng := advance (length (fit_agents todo)) g; city := c;
               agents := (done ++ todo)%list |}).
Proof.
  induction todo as [|a rest IH]; intros done ctx plans g c.
  - simpl. eexists. reflexivity.
  - simpl seq. simpl planning_loop.
    assert (Ha : (done ++ a :: rest)%list !! length done = Some a)
      by apply list_lookup_middle, eq_refl.
    destruct (call_plan_draw (length done) ctx
                {| rng := g; city := c; agents := (done ++ a :: rest)%list |} a Ha)
      as (pl & Hcall).
    unfold bind at 1. rewrite Hcall.
    unfold bind at 1. unfold agent_at at 1. simpl agents. rewrite Ha.
    simpl fst. simpl snd. simpl rng. simpl city.
    destruct (IH (done ++ [a])%list ctx (<[id a := pl]> plans)
                (if (energy a <? 0.3)%float then g else snd (random g)) c)
      as (plans' & Hloop).
    rewrite length_app in Hloop. simpl in Hloop.
    rewrite Nat.add_1_r, <- app_assoc in Hloop. simpl in Hloop.
    exists plans'. rewrite Hloop. unfold fit_agents. rewrite filter_cons.
    destruct (energy a <? 0.3)%float eqn:Htired.
    + rewrite decide_False by discriminate. reflexivity.
    + rewrite decide_True by reflexivity. simpl length.
      unfold advance. rewrite Nat.iter_succ_r. reflexivity.
Qed.

Lemma act_keeps_rng (pl : PlannedAction) (fr fr' : ActFrame G) :
  action_type pl <> "crime" ->
  act pl fr = Some (tt, fr') -> a_rng fr' = a_rng fr.
Proof.
  intros Hty. rewrite act_unfold.
  destruct (act_branch pl fr) as [[desc fr1]|] eqn:Hb; [|discriminate].
  destruct (act_branch_no_crime _ _ _ _ Hty Hb) as (_ & _ & _ & Hrng).
  intros Hact. inversion Hact; subst; clear Hact. exact Hrng.
Qed.

(** With no crime among the plans the actions loop makes no draw. *)
Lemma actions_loop_keeps_rng (idxs : list nat) :
  forall (plans : gmap Z PlannedAction) (e e' : Engine G),
  (forall k pl, plans !! k = Some pl -> action_type pl <> "crime") ->
  actions_loop idxs plans e = Some (tt, e') -> rng e' = rng e.
Proof.
  induction idxs as [|i rest IH]; intros plans e e' Hplans Hloop.
  - simpl in Hloop. inversion Hloop. reflexivity.
  - simpl in Hloop. unfold bind at 1 in Hloop. unfold agent_at at 1 in Hloop.
    destruct (agents e !! i) as [a|] eqn:Ha; [|discriminate].
    destruct (plans !! id a) as [pl|] eqn:Hpl; [|exact (IH _ _ _ Hplans Hloop)].
    unfold bind at 1 in Hloop. unfold call_act at 1 in Hloop.
    unfold bind at 1 in Hloop. unfold agent_at at 1 in Hloop. rewrite Ha in Hloop.
    destruct (act pl _) as [[[] fr']|] eqn:Hact; [|discriminate].
    unfold bind at 1 in Hloop. unfold last_entry at 1 in Hloop. simpl in Hloop.
    destruct (last (logs (a_city fr'))) as [entry|]; [|discriminate].
    rewrite (IH _ _ _ Hplans Hloop). simpl.
    exact (act_keeps_rng _ _ _ (Hplans _ _ Hpl) Hact).
Qed.

(** X21: the draws of a day. A day of the engine uses the random source for
    one index draw (the weather), one uniform draw (the event) and then one
    uniform draw per agent that starts the day with energy not below 0.3;
    the actions and the city update draw nothing. *)
Theorem day_draws (e : Engine G) :
  exists plans e',
    day_cycle e = Some (plans, e') /\
    rng e' = advance (length (fit_agents (agents e)))
               (snd (random (snd (randbelow 4 (rng e))))).
Proof.
  destruct (day_cycle_result e)
    as (plans & e' & new & Hday & _ & _ & _ & _ & _ & Hfive & _).
  exists plans, e'. split; [exact Hday|].
  destruct (day_cycle_inv _ _ _ Hday)
    as (ctx & e1 & ctx' & e2 & e3 & e4 & Hctx & Hplan & Hacts & Hup & ->).
  simpl.
  destruct (city_update_clamps _ _ Hup) as (_ & _ & -> & _).
  assert (Hnocrime : forall k pl, plans !! k = Some pl ->
                       action_type pl <> "crime").
  { intros k pl Hk Hty. specialize (Hfive k pl Hk). rewrite Hty in Hfive.
    repeat (apply elem_of_cons in Hfive as [Hfive|Hfive]; [discriminate|]).
    inversion Hfive. }
  unfold _citizen_actions in Hacts. unfold bind at 1, gets at 1 in Hacts.
  rewrite (actions_loop_keeps_rng _ _ _ _ Hnocrime Hacts).
  assert (He1 : e1 = {| rng := snd (random (snd (randbelow 4 (rng e))));
                        city := reset_daily_stats (city e);
                        agents := agents e |}).
  { destruct (weather_choice_result
                {| rng := rng e; city := reset_daily_stats (city e);
                   agents := agents e |}) as (w & g & Hw & _).
    unfold _day_context, _random_weather in Hctx.
    unfold bind at 1 in Hctx. rewrite Hw in Hctx.
    unfold engine_choice in Hw. simpl in Hw.
    destruct (_ !! _) in Hw; [|discriminate].
    inversion Hw; subst; clear Hw.
    run_monad. inversion Hctx. reflexivity. }
  subst e1.
  destruct (planning_loop_draws (agents e) [] ctx ∅
              (snd (random (snd (randbelow 4 (rng e)))))
              (reset_daily_stats (city e))) as (plans' & Hloop).
  unfold _citizen_planning in Hplan. unfold bind at 1, gets at 1 in Hplan.
  simpl in Hplan, Hloop. rewrite Hloop in Hplan.
  inversion Hplan. reflexivity.
Qed.

End DrawExtras.

(** ** The properties on concrete inputs *)

(** C1, as first stated, fails: Carla has no money and tries to run the
    shop; [act] returns, and [shop_count], 0 before the call, is still 0
    after it and not 0 + 1. *)
Lemma shop_count_not_incremented :
  action_type shop_plan = "shop" /\
  (money (a_self shop_frame) <? 5)%float = true /\
  daily_stats (a_city shop_frame) !! "shop_count" = Some 0%float /\
  exists fr',
    act shop_plan shop_frame = Some (tt, fr') /\
    daily_stats (a_city fr') !! "shop_count" = Some 0%float /\
    daily_stats (a_city fr') !! "shop_count" <> Some (0 + 1)%float.
Proof.
  split; [reflexivity|]. split; [reflexivity|]. split; [reflexivity|].
  eexists. split; [vm_compute; reflexivity|].
  split; [reflexivity|].
  intros Heq.
  apply (f_equal (fun o => match o with
                           | Some x => (x <? 1)%float
                           | None => false
                           end)) in Heq.
  vm_compute in Heq. discriminate Heq.
Qed.

Lemma shop_without_funds_witness :
  action_type shop_plan = "shop" /\
  (money (a_self shop_frame) <? 5)%float = true /\
  exists fr',
    act shop_plan shop_frame = Some (tt, fr') /\
    money (a_self fr') = money (a_self shop_frame) /\
    economy (a_city fr') = economy (a_city shop_frame) /\
    daily_stats (a_city fr') = daily_stats (a_city shop_frame) /\
    daily_stats (a_city fr') !! "shop_count"
      = daily_stats (a_city shop_frame) !! "shop_count".
Proof.
  split; [reflexivity|]. split; [reflexivity|].
  apply (shop_without_funds shop_plan shop_frame); reflexivity.
Defined.

Lemma city_update_rule_witness :
  exists e',
    _city_update busy_engine = Some (tt, e') /\
    economy (city e') = ((100 + (0.5 * 4 + 0.3 * 1)) * 0.995)%float /\
    safety (city e') = clamp01 (0.8 + 0.01 * 1 - 0.03 * 0 + 0.02 * 0)%float /\
    happiness (city e') = clamp01 (0.8 + 0.01 * 0 + 0.005 * 0 - 0.015 * 0)%float.
Proof.
  apply (city_update_rule busy_engine 4 1 1 0 0 0 0); reflexivity.
Defined.

Lemma fatigue_override_witness :
  (energy (p_self tired_frame) <? 0.3)%float = true /\
  exists pl,
    plan tired_frame = Some (pl, tired_frame) /\
    action_type pl = "rest" /\
    pl = mk_plan "rest" None "Too tired, staying home.".
Proof.
  split; [reflexivity|].
  apply (fatigue_override tired_frame). reflexivity.
Defined.

Lemma bounded_after_update_witness :
  (exists fr',
     act crime_plan crime_frame = Some (tt, fr') /\
     in_unit (energy (a_self fr')) /\ in_unit (mood (a_self fr'))) /\
  (exists e',
     _city_update busy_engine = Some (tt, e') /\
     in_unit (safety (city e')) /\ in_unit (happiness (city e'))).
Proof.
  destruct (@bounded_after_update Tape tape_source)
    as (Hact & Hact_total & Hcity & Hcity_total & _).
  split.
  - destruct (Hact_total crime_plan crime_frame) as [[[] fr'] Hrun].
    + intros k Hk. unfold stat_keys in Hk.
      repeat (apply elem_of_cons in Hk as [->|Hk]; [vm_compute; eauto|]).
      inversion Hk.
    + exists fr'. split; [exact Hrun|]. exact (Hact _ _ _ Hrun).
  - destruct (Hcity_total busy_engine) as [[[] e'] Hrun].
    + intros k Hk. unfold stat_keys in Hk.
      repeat (apply elem_of_cons in Hk as [->|Hk]; [vm_compute; eauto|]).
      inversion Hk.
    + exists e'. split; [exact Hrun|]. exact (Hcity _ _ Hrun).
Defined.


Lemma shop_owner_plan_witness :
  role (p_self owner_frame) = "shop_owner" /\
  (0.3 <=? energy (p_self owner_frame))%float = true /\
  (economy (p_city owner_frame) <? 80)%float = true /\
  (0.3 <=? fst (random (p_rng owner_frame)))%float = true /\
  (fst (random (p_rng owner_frame)) <? 0.75)%float = true /\
  plan owner_frame =
    Some (mk_plan "shop" (Some "store") "",
          {| p_self := p_self owner_frame; p_city := p_city owner_frame;
             p_ctx := p_ctx owner_frame;
             p_rng := snd (random (p_rng owner_frame)) |}).
Proof.
  do 5 (split; [reflexivity|]).
  apply (shop_owner_plan owner_frame); reflexivity.
Defined.

Lemma crime_outcomes_witness :
  action_type crime_plan = "crime" /\
  (0.3 + (0.5 - safety (a_city crime_frame)) <=? fst (random (a_rng crime_frame)))%float
    = true /\
  exists fr',
    act crime_plan crime_frame = Some (tt, fr') /\
    daily_stats (a_city fr') !! "crime_attempts" = Some (0 + 1)%float /\
    mood (a_self fr') = clamp01 (mood (a_self crime_frame) - 0.2)%float /\
    daily_stats (a_city fr') !! "crime_prevented" = Some (0 + 1)%float /\
    safety (a_city fr') = safety (a_city crime_frame).
Proof.
  split; [reflexivity|]. split; [reflexivity|].
  destruct (crime_outcomes crime_plan crime_frame 0 0)
    as (fr' & Hact & Hattempts & Hfail & _); try reflexivity.
  exists fr'. split; [exact Hact|]. split; [exact Hattempts|].
  apply Hfail. reflexivity.
Defined.

Lemma one_entry_per_action_witness :
  (exists fr' entry,
     act shop_plan shop_frame = Some (tt, fr') /\
     logs (a_city fr') = (logs (a_city shop_frame) ++ [entry])%list /\
     entry_day entry = day (a_city shop_frame)) /\
  (exists plans e',
     day_cycle (engine_with _create_default_agents 42 : Engine Tape)
       = Some (plans, e') /\
     size plans = 6%nat /\
     length (logs (city e')) = 6%nat).
Proof.
  destruct (@one_entry_per_action Tape tape_source) as (Hact & Hday & _).
  split.
  - assert (Hrun : exists fr', act shop_plan shop_frame = Some (tt, fr')).
    { eexists. vm_compute. reflexivity. }
    destruct Hrun as [fr' Hrun].
    destruct (Hact _ _ _ Hrun) as (entry & Hlogs & Heday & _).
    exists fr', entry. split; [exact Hrun|]. split; assumption.
  - destruct (Hday (engine_with _create_default_agents 42))
      as (plans & e' & new & Hrun & _ & Hsize & Hlogs & Hlen & _).
    exists plans, e'. split; [exact Hrun|]. split.
    + apply Hsize. apply (bool_decide_unpack _). vm_compute. exact I.
    + rewrite Hlogs, length_app, Hlen. reflexivity.
Defined.

Lemma plan_never_crime_witness :
  (exists pl fr',
     plan owner_frame = Some (pl, fr') /\ action_type pl <> "crime") /\
  (exists days_plans e',
     run 5 (engine_with _create_default_agents 42 : Engine Tape)
       = Some (days_plans, e') /\
     daily_stats (city e') !! "crime_attempts" = Some 0%float /\
     daily_stats (city e') !! "crime_prevented" = Some 0%float).
Proof.
  destruct (@plan_never_crime Tape tape_source) as (Hplan & _ & Hrun).
  split.
  - eexists _, _. split; [vm_compute; reflexivity|].
    refine (proj2 (Hplan owner_frame _ _ _)). vm_compute. reflexivity.
  - destruct (Hrun 5%Z (engine_with _create_default_agents 42))
      as (ps & e' & Hr & _ & Hca & Hcp); [lia|].
    exists ps, e'. auto.
Defined.

Lemma clamp01_fixes_unit_interval_witness :
  in_unit 0.5%float /\ (clamp01 0.5 =? 0.5)%float = true /\
  is_nan nan = true /\ clamp01 nan = 1%float.
Proof.
  destruct clamp01_fixes_unit_interval as (_ & Hunit & Hnan).
  assert (Hin : in_unit 0.5%float) by (split; reflexivity).
  split; [exact Hin|]. split; [exact (Hunit _ Hin)|].
  split; [reflexivity|]. apply Hnan. reflexivity.
Defined.

Lemma act_raises_iff_counter_missing_witness :
  action_type work_plan = "work" /\
  daily_stats (a_city unreset_frame) !! "work_count" = None /\
  act work_plan unreset_frame = None /\
  is_Some (act dance_plan unreset_frame).
Proof.
  destruct (act_raises_iff_counter_missing work_plan unreset_frame)
    as (Hsimple & _).
  destruct (act_raises_iff_counter_missing dance_plan unreset_frame)
    as (_ & _ & _ & Hother).
  split; [reflexivity|]. split; [reflexivity|]. split.
  - apply (Hsimple "work" "work_count"); [repeat constructor|reflexivity..].
  - apply Hother. intros Hin.
    repeat (apply elem_of_cons in Hin as [Hin|Hin]; [discriminate|]).
    inversion Hin.
Defined.

Lemma act_unknown_type_witness :
  (action_type dance_plan
     ∉ ["work"; "shop"; "rest"; "patrol"; "crime"; "socialize"]) /\
  exists fr',
    act dance_plan alice_frame = Some (tt, fr') /\
    money (a_self fr') = 50%float /\
    ((description <$> last (logs (a_city fr')))
       = Some "did nothing in particular.").
Proof.
  assert (Hty : action_type dance_plan
                ∉ ["work"; "shop"; "rest"; "patrol"; "crime"; "socialize"]).
  { intros Hin.
    repeat (apply elem_of_cons in Hin as [Hin|Hin]; [discriminate|]).
    inversion Hin. }
  split; [exact Hty|].
  eexists. split; [exact (act_unknown_type dance_plan alice_frame Hty)|].
  split; reflexivity.
Defined.

Lemma act_leaves_alone_witness :
  exists fr',
    act rest_plan alice_frame = Some (tt, fr') /\
    day (a_city fr') = day (a_city alice_frame) /\
    economy (a_city fr') = economy (a_city alice_frame) /\
    money (a_self fr') = money (a_self alice_frame) /\
    a_rng fr' = a_rng alice_frame.
Proof.
  assert (Hrun : exists fr', act rest_plan alice_frame = Some (tt, fr')).
  { eexists. vm_compute. reflexivity. }
  destruct Hrun as [fr' Hrun]. exists fr'. split; [exact Hrun|].
  destruct (act_leaves_alone _ _ _ Hrun)
    as ((_ & _ & _ & Hday & _) & Hcrime & Heco & Hmoney).
  split; [exact Hday|].
  split; [apply Heco; discriminate|].
  split; [apply Hmoney; discriminate|].
  apply Hcrime. discriminate.
Defined.

Lemma act_description_nonempty_witness :
  exists fr' entry,
    act dance_plan alice_frame = Some (tt, fr') /\
    last (logs (a_city fr')) = Some entry /\ description entry <> "".
Proof.
  assert (Hrun : exists fr', act dance_plan alice_frame = Some (tt, fr')).
  { eexists. vm_compute. reflexivity. }
  destruct Hrun as [fr' Hrun].
  destruct (act_description_nonempty _ _ _ Hrun) as (entry & Hlast & Hdesc).
  exists fr', entry. auto.
Defined.

Lemma act_work_and_shop_witness :
  action_type work_plan = "work" /\
  daily_stats (a_city alice_frame) !! "work_count" = Some 0%float /\
  exists fr',
    act work_plan alice_frame = Some (tt, fr') /\
    money (a_self fr') = (50 + 10)%float /\
    economy (a_city fr') = (100 + 1.5)%float.
Proof.
  split; [reflexivity|]. split; [reflexivity|].
  destruct (act_work_and_shop work_plan alice_frame 0) as (Hwork & _).
  destruct Hwork as (fr' & Hact & Hmoney & _ & _ & Heco & _); [reflexivity..|].
  exists fr'. auto.
Defined.

Lemma act_rest_patrol_socialize_witness :
  action_type rest_plan = "rest" /\
  daily_stats (a_city alice_frame) !! "rest_count" = Some 0%float /\
  exists fr',
    act rest_plan alice_frame = Some (tt, fr') /\
    energy (a_self fr') = clamp01 (py_min 1 (1 + 0.4)%float) /\
    daily_stats (a_city fr') !! "rest_count" = Some (0 + 1)%float.
Proof.
  split; [reflexivity|]. split; [reflexivity|].
  destruct (act_rest_patrol_socialize rest_plan alice_frame 0) as (Hrest & _).
  destruct Hrest as (fr' & Hact & Henergy & _ & Hstats); [reflexivity..|].
  exists fr'. split; [exact Hact|]. split; [exact Henergy|].
  rewrite Hstats. apply lookup_insert_eq.
Defined.

Lemma plan_reads_only_witness :
  energy (p_self owner_frame) = energy (p_self mayor_frame) /\
  fst (random (p_rng owner_frame)) = fst (random (p_rng mayor_frame)) /\
  fst <$> plan (mayor_frame : PlanFrame Tape)
    = fst <$> plan {| p_self := set_money 0 (set_mood 0 (p_self mayor_frame));
                      p_city := p_city mayor_frame;
                      p_ctx := p_ctx owner_frame;
                      p_rng := p_rng owner_frame |}.
Proof.
  split; [reflexivity|]. split; [reflexivity|].
  apply plan_reads_only; reflexivity.
Defined.

Lemma plan_role_tables_witness :
  (energy (p_self mayor_frame) <? 0.3)%float = false /\
  (role (p_self mayor_frame) ∉ ["worker"; "shop_owner"; "student"; "police"]) /\
  ((fst <$> plan mayor_frame) = Some (mk_plan "socialize" (Some "square") "")).
Proof.
  assert (Hrole : role (p_self mayor_frame)
                  ∉ ["worker"; "shop_owner"; "student"; "police"]).
  { intros Hin.
    repeat (apply elem_of_cons in Hin as [Hin|Hin]; [discriminate|]).
    inversion Hin. }
  split; [reflexivity|]. split; [exact Hrole|].
  destruct (plan_role_tables mayor_frame) as (_ & _ & _ & Hdefault);
    [reflexivity|].
  rewrite (Hdefault Hrole). reflexivity.
Defined.

Lemma choice_member_witness :
  ["sunny"; "cloudy"] <> [] /\
  (exists x g,
     engine_choice ["sunny"; "cloudy"] start_engine
       = Some (x, {| rng := g; city := city start_engine;
                     agents := agents start_engine |}) /\
     x ∈ ["sunny"; "cloudy"]) /\
  engine_choice [] start_engine = None.
Proof.
  split; [discriminate|].
  destruct (choice_member ["sunny"; "cloudy"] start_engine) as (Hsome & _).
  destruct (choice_member [] start_engine) as (_ & Hnone).
  split; [apply Hsome; discriminate|]. apply Hnone. reflexivity.
Defined.

Lemma actions_skip_unplanned_witness :
  (forall a, a ∈ agents start_engine ->
             (∅ : gmap Z PlannedAction) !! id a = None) /\
  _citizen_actions ∅ {| ctx_day := 1; weather := "sunny"; events := [] |}
     start_engine = Some (tt, start_engine).
Proof.
  assert (Hnone : forall a, a ∈ agents start_engine ->
                    (∅ : gmap Z PlannedAction) !! id a = None).
  { intros a _. apply lookup_empty. }
  split; [exact Hnone|].
  apply actions_skip_unplanned. exact Hnone.
Defined.

Lemma day_start_resets_witness :
  exists e',
    _day_start busy_engine = Some (tt, e') /\
    daily_stats (city busy_engine) !! "work_count" = Some 4%float /\
    daily_stats (city e') !! "work_count" = Some 0%float /\
    logs (city e') = logs (city busy_engine).
Proof.
  destruct (day_start_resets busy_engine)
    as (e' & Hstart & Hkeys & Hzero & _ & _ & _ & _ & Hlogs & _).
  exists e'. split; [exact Hstart|]. split; [reflexivity|].
  split; [|exact Hlogs].
  destruct (proj2 (Hkeys "work_count")) as [v Hv]; [repeat constructor|].
  rewrite Hv. f_equal. exact (Hzero _ _ Hv).
Defined.

Lemma run_invariants_witness :
  (0 < 5)%Z /\
  exists days_plans e',
    run 5 start_engine = Some (days_plans, e') /\
    Forall (fun a => in_unit (energy a) /\ in_unit (mood a)) (agents e') /\
    in_unit (safety (city e')) /\
    is_Some (daily_stats (city e') !! "rest_count").
Proof.
  split; [lia|].
  destruct (run_invariants 5 start_engine) as (ps & e' & Hrun & _ & Hpos).
  destruct Hpos as (Hagents & Hs & _ & Hkeys); [lia|].
  exists ps, e'. split; [exact Hrun|]. split; [exact Hagents|].
  split; [exact Hs|]. apply Hkeys. repeat constructor.
Defined.

Lemma city_update_returns_iff_witness :
  has_counters (daily_stats (city busy_engine)) /\
  is_Some (_city_update busy_engine) /\
  ~ is_Some (_city_update start_engine).
Proof.
  destruct (city_update_returns_iff busy_engine) as (Hbusy & _).
  destruct (city_update_returns_iff start_engine) as (Hstart & _).
  assert (Hk : has_counters (daily_stats (city busy_engine))).
  { intros k Hk. unfold stat_keys in Hk.
    repeat (apply elem_of_cons in Hk as [->|Hk]; [vm_compute; eauto|]).
    inversion Hk. }
  split; [exact Hk|]. split; [apply Hbusy; exact Hk|].
  intros Hsome. apply Hstart in Hsome.
  destruct (Hsome "work_count") as [v Hv]; [repeat constructor|].
  vm_compute in Hv. discriminate Hv.
Defined.

Lemma planning_phase_frame_witness :
  NoDup (id <$> agents start_engine) /\
  exists plans g,
    _citizen_planning {| ctx_day := 1; weather := "sunny"; events := [] |}
       start_engine
      = Some ((plans, {| ctx_day := 1; weather := "sunny"; events := [] |}),
              {| rng := g; city := city start_engine;
                 agents := agents start_engine |}) /\
    size plans = 6%nat.
Proof.
  assert (Hnodup : NoDup (id <$> agents start_engine)).
  { apply (bool_decide_unpack _). vm_compute. exact I. }
  split; [exact Hnodup|].
  destruct (planning_phase_frame
              {| ctx_day := 1; weather := "sunny"; events := [] |} start_engine)
    as (plans & g & Hplan & _ & Hsize).
  exists plans, g. split; [exact Hplan|]. exact (Hsize Hnodup).
Defined.

Lemma run_day_count_witness :
  (-3 <= 0)%Z /\
  (exists days_plans e',
     run 5 start_engine = Some (days_plans, e') /\
     day (city e') = 6%Z /\ length (logs (city e')) = 30%nat) /\
  run (-3) start_engine = Some ([], start_engine).
Proof.
  split; [lia|]. split.
  - destruct (run_day_count 5 start_engine)
      as (ps & e' & Hrun & _ & Hday & Hlogs & _).
    exists ps, e'. split; [exact Hrun|]. split; [exact Hday|exact Hlogs].
  - destruct (run_day_count (-3) start_engine)
      as (ps & e' & Hrun & _ & _ & _ & _ & Hnone).
    destruct Hnone as [-> ->]; [lia|]. exact Hrun.
Defined.

Lemma run_log_stamps_witness :
  exists days_plans e' new entry,
    run 2 start_engine = Some (days_plans, e') /\
    logs (city e') = (logs (city start_engine) ++ new)%list /\
    new !! 7%nat = Some entry /\
    entry_day entry = 2%Z /\ agent_id entry = 2%Z.
Proof.
  destruct (run_log_stamps 2 start_engine)
    as (ps & e' & new & Hrun & Hlogs & Hst).
  destruct (run_day_count 2 start_engine)
    as (ps' & e'' & Hrun' & _ & _ & Hlen & _).
  rewrite Hrun in Hrun'. inversion Hrun'; subst ps' e''; clear Hrun'.
  rewrite Hlogs, length_app in Hlen. simpl in Hlen.
  destruct (lookup_lt_is_Some_2 new 7) as [entry Hentry]; [lia|].
  exists ps, e', new, entry. split; [exact Hrun|]. split; [exact Hlogs|].
  split; [exact Hentry|].
  destruct (Hst 7%nat entry Hentry) as [Hday Hid].
  split; [exact Hday|].
  assert (E : (id <$> agents start_engine)
                !! (7 mod length (agents start_engine))%nat = Some 2%Z)
    by reflexivity.
  rewrite E in Hid. congruence.
Defined.

